(** * drest: a shallow embedding of the resource handlers and API connections

    The development follows [drest/resource.py] and [drest/api.py].  Python
    objects are records, exceptions are values of [exn], and every method is a
    function in a state-and-exception monad whose state is the object the
    method mutates.  The request handler of [drest/request.py] is the one
    collaborator the two modules talk to; it is represented by the sequence of
    calls it has received together with the function that decides what each
    HTTP request returns. *)

From Stdlib Require Import Ascii String DecimalString.
From stdpp Require Import gmap strings list fin_maps.

Open Scope string_scope.
Open Scope list_scope.

(** ** Python values *)

(** Scalars that callers pass as resource ids, user names and secrets.  The
    code only formats them with [%s] and tests their truth value. *)
Inductive pyval :=
| PNone
| PInt (z : Z)
| PStr (s : string).

(** Decoded response bodies. *)
#[local] Set Warnings "-register-all".
Inductive json :=
| JNull
| JBool (b : bool)
| JNum (z : Z)
| JStr (s : string)
| JArr (items : list json)
| JObj (members : list (string * json)).

(** Request parameters: a dictionary, kept as its item list. *)
Definition params := list (string * string).

Module Py.

(** [bool(v)] *)
Definition truthy (v : pyval) : bool :=
  match v with
  | PNone => false
  | PInt z => negb (Z.eqb z 0)
  | PStr s => negb (String.eqb s "")
  end.

(** [bool(j)] for a decoded body. *)
Definition truthy_json (j : json) : bool :=
  match j with
  | JNull => false
  | JBool b => b
  | JNum z => negb (Z.eqb z 0)
  | JStr s => negb (String.eqb s "")
  | JArr items => match items with [] => false | _ => true end
  | JObj members => match members with [] => false | _ => true end
  end.

(** [str(z)] for an integer. *)
Definition str_int (z : Z) : string := NilZero.string_of_int (Z.to_int z).

(** ['%s' % v] *)
Definition str (v : pyval) : string :=
  match v with
  | PNone => "None"
  | PInt z => str_int z
  | PStr s => s
  end.

(** [s.lstrip(c)] for a one-character [c]. *)
Fixpoint lstrip (c : ascii) (s : string) : string :=
  match s with
  | EmptyString => EmptyString
  | String a s' => if Ascii.eqb a c then lstrip c s' else s
  end.

(** [s.rstrip(c)] for a one-character [c]. *)
Fixpoint rstrip (c : ascii) (s : string) : string :=
  match s with
  | EmptyString => EmptyString
  | String a s' =>
      match rstrip c s' with
      | EmptyString => if Ascii.eqb a c then EmptyString else String a EmptyString
      | r => String a r
      end
  end.

(** [s.split(c)] for a one-character separator; the result is never empty. *)
Fixpoint split (c : ascii) (s : string) : list string :=
  match s with
  | EmptyString => [EmptyString]
  | String a s' =>
      if Ascii.eqb a c then EmptyString :: split c s'
      else match split c s' with
           | seg :: rest => String a seg :: rest
           | [] => [String a EmptyString]
           end
  end.

(** [l[-1]] on the list a [split] returned. *)
Definition last_item (l : list string) : string := List.last l EmptyString.

(** [c not in s] *)
Fixpoint lacks (c : ascii) (s : string) : bool :=
  match s with
  | EmptyString => true
  | String a s' => negb (Ascii.eqb a c) && lacks c s'
  end.

(** [type(j).__name__] of a decoded body (Python 3 names). *)
Definition type_name (j : json) : string :=
  match j with
  | JNull => "NoneType"
  | JBool _ => "bool"
  | JNum _ => "int"
  | JStr _ => "str"
  | JArr _ => "list"
  | JObj _ => "dict"
  end.

(** [c * k] *)
Fixpoint times (c : ascii) (k : nat) : string :=
  match k with
  | O => EmptyString
  | S k' => String c (times c k')
  end.

End Py.

(** ** Exceptions and the method monad *)

(** Transport-level response metadata. *)
Record response := mkResponse { status : Z; reason : string }.

(** The exception classes of [drest.exc] raised or caught in the two modules,
    and Python's [AttributeError] and [TypeError]. *)
Inductive exn :=
| dRestResourceError (msg : string)
| dRestAPIError (msg : string)
| dRestRequestError (msg : string) (resp : response) (content : json)
| AttributeError (msg : string)
| TypeError (msg : string).

Inductive result (A : Type) :=
| Ok (a : A)
| Raise (e : exn).
Arguments Ok {A} a.
Arguments Raise {A} e.

(** A method on an object of type [S]: it returns or raises, and leaves the
    object in a (possibly mutated) state either way. *)
Definition M (S A : Type) : Type := S -> result A * S.

Definition ret {S A} (a : A) : M S A := fun s => (Ok a, s).

Definition raise {S A} (e : exn) : M S A := fun s => (Raise e, s).

Definition bind {S A B} (m : M S A) (k : A -> M S B) : M S B :=
  fun s => match m s with
           | (Ok a, s') => k a s'
           | (Raise e, s') => (Raise e, s')
           end.

Definition gets {S A} (f : S -> A) : M S A := fun s => (Ok (f s), s).

Definition modify {S} (f : S -> S) : M S unit := fun s => (Ok tt, f s).

(** [try: m except dRestRequestError as e: handler(e)]; other exceptions
    propagate. *)
Definition try_except_request {S A} (m : M S A)
    (handler : string -> response -> json -> M S A) : M S A :=
  fun s => match m s with
           | (Raise (dRestRequestError msg resp content), s') => handler msg resp content s'
           | other => other
           end.

(** Sequential [for x in l: body(x)]; the first exception ends the loop. *)
Fixpoint for_each {S A} (l : list A) (body : A -> M S unit) : M S unit :=
  match l with
  | [] => ret tt
  | x :: l' => bind (body x) (fun _ => for_each l' body)
  end.

Declare Scope py_scope.
Delimit Scope py_scope with py.
Notation "x <- m ;; k" := (bind m (fun x => k))
  (at level 100, m at next level, right associativity) : py_scope.
Notation "m ;;; k" := (bind m (fun _ => k))
  (at level 100, right associativity) : py_scope.

(** ** The request handler, as the two modules see it *)

(** A call received by a request handler. *)
Inductive call :=
| AddHeader (key value : string)
| SetAuthCredentials (user password : pyval)
| Request (method path : string) (ps : params).

(** Modelled from the spec: the transport handler of [drest/request.py], which
    is not among the sources (it performs an HTTP call given verb, path and
    parameters, supports header injection and credential storage, and fails
    with a request error on a non-success response).  The object is the calls
    it has received so far, oldest first, and the outcome of an HTTP request
    given everything the handler was told before (headers, credentials,
    earlier requests): what [RequestHandler.request] returns or raises. *)
Record RequestHandler := mkRequestHandler {
  received : list call;
  outcome : list call -> string -> string -> params -> result (response * json)
}.

Module request.

Definition record (c : call) (t : RequestHandler) : RequestHandler :=
  {| received := received t ++ [c]; outcome := outcome t |}.

(** Modelled from the spec: [RequestHandler.add_header(key, value)], header
    injection; the call is recorded. *)
Definition add_header (key value : string) : M RequestHandler unit :=
  modify (record (AddHeader key value)).

(** Modelled from the spec: [RequestHandler.set_auth_credentials(user,
    password)], credential storage; the call is recorded. *)
Definition set_auth_credentials (user password : pyval) : M RequestHandler unit :=
  modify (record (SetAuthCredentials user password)).

(** Modelled from the spec: [RequestHandler.request(method, path, params)];
    it returns the pair (response, decoded body) or raises, as [outcome]
    decides, and the call is recorded. *)
Definition request (method path : string) (ps : params)
    : M RequestHandler (response * json) :=
  fun t => (outcome t (received t) method path ps, record (Request method path ps) t).

(** The requests among the calls a handler received. *)
Definition requests (t : RequestHandler) : list call :=
  List.filter (fun c => match c with Request _ _ _ => true | _ => false end) (received t).

End request.

(** ** drest/resource.py *)

Module resource.

Local Open Scope py_scope.

(** The handler's [_meta]: the [Meta] attributes of [ResourceHandler] and
    [TastyPieResourceHandler] that the methods read or write. *)
Record Meta := mkMeta {
  meta_baseurl : option string;
  meta_name : string;
  meta_path : string;
  meta_schema : json
}.

(** A resource handler class: [RESTResourceHandler], [TastyPieResourceHandler]
    or a subclass, which may override the [filter] hook. *)
Record ResourceClass := mkClass {
  class_filter : params -> params
}.

(** A handler instance.  Its [_request] is a reference to a request handler
    that the caller holds (and that an API connection shares among all its
    resources), so the methods below run on that handler's state. *)
Record ResourceHandler := mkHandler {
  _meta : Meta;
  filter : params -> params
}.

(** [RESTResourceHandler.filter] *)
Definition default_filter (ps : params) : params := ps.

Definition RESTResourceHandler : ResourceClass := {| class_filter := default_filter |}.

Definition TastyPieResourceHandler : ResourceClass := {| class_filter := default_filter |}.

(** What the [request] keyword of the constructor holds: a request handler
    class, or an instance (one that has a [_meta]). *)
Inductive request_arg := Uninstantiated | Instantiated.

Definition provided (o : option string) : bool :=
  match o with
  | Some s => negb (String.eqb s "")
  | None => false
  end.

(** [ResourceHandler.__init__(baseurl=, name=, path=, request=)]; [schema]
    starts at the class default [None].  [request.validate] belongs to the
    request module and is left out. *)
Definition __init__ (cls : ResourceClass) (baseurl name path : option string)
    (req : request_arg) : result ResourceHandler :=
  if negb (provided name) then Raise (dRestResourceError "name required")
  else if negb (provided path) then Raise (dRestResourceError "path required")
  else
    let h := {| _meta := {| meta_baseurl := baseurl;
                            meta_name := default "" name;
                            meta_path := Py.rstrip "/" (Py.lstrip "/" (default "" path));
                            meta_schema := JNull |};
                filter := class_filter cls |} in
    match req with
    | Uninstantiated =>
        if negb (provided baseurl)
        then Raise (dRestResourceError
               "baseurl required when passing uninstantiated request handler.")
        else Ok h
    | Instantiated => Ok h
    end.

Section Methods.

Variable self : ResourceHandler.

(** [RESTResourceHandler.request] *)
Definition request (method path : string) (ps : params)
    : M RequestHandler (response * json) :=
  request.request method path ps.

(** [RESTResourceHandler.get] *)
Definition get (resource_id : pyval) (ps : params)
    : M RequestHandler (response * json) :=
  let path :=
    if Py.truthy resource_id
    then "/" +:+ meta_path (_meta self) +:+ "/" +:+ Py.str resource_id
    else "/" +:+ meta_path (_meta self) in
  try_except_request
    (request "GET" path (filter self ps))
    (fun msg resp content =>
       raise (dRestRequestError
                (msg +:+ " (resource: " +:+ meta_name (_meta self)
                     +:+ ", id: " +:+ Py.str resource_id +:+ ")")
                resp content)).

(** [RESTResourceHandler.post] *)
Definition post (ps : params) : M RequestHandler (response * json) :=
  let ps := filter self ps in
  let path := "/" +:+ meta_path (_meta self) in
  try_except_request
    (request "POST" path (filter self ps))
    (fun msg resp content =>
       raise (dRestRequestError
                (msg +:+ " (resource: " +:+ meta_name (_meta self) +:+ ")")
                resp content)).

(** [RESTResourceHandler.create] *)
Definition create (ps : params) : M RequestHandler (response * json) :=
  post ps.

(** [RESTResourceHandler.put] *)
Definition put (resource_id : pyval) (ps : params)
    : M RequestHandler (response * json) :=
  let ps := filter self ps in
  let path := "/" +:+ meta_path (_meta self) +:+ "/" +:+ Py.str resource_id in
  try_except_request
    (request "PUT" path ps)
    (fun msg resp content =>
       raise (dRestRequestError
                (msg +:+ " (resource: " +:+ meta_name (_meta self)
                     +:+ ", id: " +:+ Py.str resource_id +:+ ")")
                resp content)).

(** [RESTResourceHandler.update] *)
Definition update (resource_id : pyval) (ps : params)
    : M RequestHandler (response * json) :=
  put resource_id ps.

(** [RESTResourceHandler.delete] *)
Definition delete (resource_id : pyval) (ps : params)
    : M RequestHandler (response * json) :=
  let path := "/" +:+ meta_path (_meta self) +:+ "/" +:+ Py.str resource_id in
  try_except_request
    (request "DELETE" path ps)
    (fun msg resp content =>
       raise (dRestRequestError
                (msg +:+ " (resource: " +:+ meta_name (_meta self)
                     +:+ ", id: " +:+ Py.str resource_id +:+ ")")
                resp content)).

(** [TastyPieResourceHandler.get_by_uri] *)
Definition get_by_uri (resource_uri : string) (ps : params)
    : M RequestHandler (response * json) :=
  let resource_uri := Py.rstrip "/" resource_uri in
  let pk := Py.last_item (Py.split "/" resource_uri) in
  get (PStr pk) ps.

End Methods.

Definition set_schema (data : json) (h : ResourceHandler) : ResourceHandler :=
  {| _meta := {| meta_baseurl := meta_baseurl (_meta h);
                 meta_name := meta_name (_meta h);
                 meta_path := meta_path (_meta h);
                 meta_schema := data |};
     filter := filter h |}.

(** Run a method of the request handler on the second component of the
    pair (handler, its request handler). *)
Definition on_request {A} (m : M RequestHandler A)
    : M (ResourceHandler * RequestHandler) A :=
  fun s => match m (snd s) with
           | (r, t') => (r, (fst s, t'))
           end.

(** [TastyPieResourceHandler.schema] (a property): the state is the handler
    together with its request handler. *)
Definition schema : M (ResourceHandler * RequestHandler) json :=
  self <- gets fst ;;
  (if negb (Py.truthy_json (meta_schema (_meta self)))
   then
     rd <- on_request (request "GET" (meta_path (_meta self) +:+ "/schema") []) ;;
     modify (fun s => (set_schema (snd rd) (fst s), snd s))
   else ret tt) ;;;
  gets (fun s => meta_schema (_meta (fst s))).

End resource.

(** ** drest/api.py *)

Module api.

Local Open Scope py_scope.

(** The connection's [_meta]: the [Meta] attributes of [API] and
    [TastyPieAPI] that the methods read. *)
Record Meta := mkMeta {
  meta_baseurl : option string;
  meta_resource : resource.ResourceClass;
  meta_ignore_ssl_validation : bool;
  meta_auto_detect_resources : bool;
  meta_auth_mech : string;
  meta_auth_mechanizms : list string
}.

(** What [getattr(self, name)] finds: something the class or its
    constructor defines (a method, a property, a private field), or a
    resource handler attached by [add_resource]. *)
Inductive attr :=
| Member
| Resource (h : resource.ResourceHandler).

(** A connection object.  [attrs] is its attribute namespace as
    [hasattr]/[setattr] see it; [_request] is the one request handler that
    the connection and all its resource handlers share; [repr] is
    [str(self)]. *)
Record API := mkAPI {
  _meta : Meta;
  attrs : gmap string attr;
  _resources : list string;
  _request : RequestHandler;
  repr : string
}.

(** Attributes of an [API] instance.  [inherited] is what the instance has
    from [object] and [MetaMixin] in the running interpreter ([__class__],
    [__init__], on Python 3 also [__eq__], [__dir__], ...); the rest is the
    class body and what [__init__] and [MetaMixin] set. *)
Definition API_members (inherited : list string) : list string :=
  inherited ++
  ["Meta"; "auth"; "request"; "resources"; "add_resource";
   "_meta"; "_resources"; "_request"].

(** Attributes of a [TastyPieAPI] instance. *)
Definition TastyPieAPI_members (inherited : list string) : list string :=
  API_members inherited ++ ["_auth_via_basic"; "_auth_via_api_key"; "find_resources"].

Definition hasattr (self : API) (name : string) : bool :=
  bool_decide (is_Some (attrs self !! name)).

Definition setattr (name : string) (h : resource.ResourceHandler) (self : API) : API :=
  {| _meta := _meta self; attrs := <[name := Resource h]> (attrs self);
     _resources := _resources self; _request := _request self; repr := repr self |}.

Definition append_resource (name : string) (self : API) : API :=
  {| _meta := _meta self; attrs := attrs self;
     _resources := _resources self ++ [name]; _request := _request self;
     repr := repr self |}.

(** Run a method of the shared request handler on the connection. *)
Definition on_request {A} (m : M RequestHandler A) : M API A :=
  fun self => match m (_request self) with
              | (r, t') => (r, {| _meta := _meta self; attrs := attrs self;
                                  _resources := _resources self; _request := t';
                                  repr := repr self |})
              end.

Definition of_result {S A} (r : result A) : M S A := fun s => (r, s).

(** [kw['baseurl'] = baseurl] merged into the class's [Meta]. *)
Definition with_baseurl (baseurl : string) (m : Meta) : Meta :=
  {| meta_baseurl := Some baseurl;
     meta_resource := meta_resource m;
     meta_ignore_ssl_validation := meta_ignore_ssl_validation m;
     meta_auto_detect_resources := meta_auto_detect_resources m;
     meta_auth_mech := meta_auth_mech m;
     meta_auth_mechanizms := meta_auth_mechanizms m |}.

(** [getattr(self, name).<method>(...)] for a method of an attached resource
    handler: the handler's [_request] is the connection's, so the method runs
    on [_request self]. *)
Definition on_resource {A} (name : string)
    (method : resource.ResourceHandler -> M RequestHandler A) : M API A :=
  fun self => match attrs self !! name with
              | Some (Resource h) => on_request (method h) self
              | Some Member =>
                  (Raise (AttributeError "attribute is not a resource handler"), self)
              | None =>
                  (Raise (AttributeError ("object has no attribute '" +:+ name +:+ "'")),
                   self)
              end.

Definition me {S} : M S S := fun s => (Ok s, s).

Module API.

(** [API.Meta]; the two authentication attributes belong to [TastyPieAPI]
    and are unused here. *)
Definition Meta : Meta :=
  {| meta_baseurl := None;
     meta_resource := resource.RESTResourceHandler;
     meta_ignore_ssl_validation := false;
     meta_auto_detect_resources := false;
     meta_auth_mech := "";
     meta_auth_mechanizms := [] |}.

(** [API.__init__]: the fresh connection of a class with the given
    members.  [server] is what the new request handler will answer. *)
Definition __init__ (members : list string) (m : api.Meta)
    (server : list call -> string -> string -> params -> result (response * json))
    (self_repr : string) : API :=
  {| _meta := m;
     attrs := list_to_map ((fun n => (n, Member)) <$> members);
     _resources := [];
     _request := {| received := []; outcome := server |};
     repr := self_repr |}.

(** [API.auth] *)
Definition auth (user password : pyval) : M API unit :=
  on_request (request.set_auth_credentials user password).

(** [API.request] *)
Definition request (method path : string) (ps : params) : M API (response * json) :=
  on_request (request.request method path ps).

(** [API.resources] (a property) *)
Definition resources (self : API) : list string := _resources self.

(** [API.add_resource]; [resource.validate] checks an empty member list
    and is left out. *)
Definition add_resource (name : string)
    (resource_handler : option resource.ResourceClass) (path : option string)
    : M API unit :=
  self <- me ;;
  let path := if negb (resource.provided path) then name
              else Py.lstrip "/" (default "" path) in
  let handler := match resource_handler with
                 | None => meta_resource (_meta self)
                 | Some cls => cls
                 end in
  handler <- of_result (resource.__init__ handler (meta_baseurl (_meta self))
                          (Some name) (Some path) resource.Instantiated) ;;
  if hasattr self name
  then raise (dRestResourceError
                ("The object '" +:+ name +:+ "' already exist on '"
                   +:+ repr self +:+ "'"))
  else
    modify (setattr name handler) ;;;
    modify (append_resource name).

End API.

Module TastyPieAPI.

(** [TastyPieAPI.Meta] *)
Definition Meta : Meta :=
  {| meta_baseurl := None;
     meta_resource := resource.TastyPieResourceHandler;
     meta_ignore_ssl_validation := false;
     meta_auto_detect_resources := true;
     meta_auth_mech := "api_key";
     meta_auth_mechanizms := ["api_key"; "basic"] |}.

(** [TastyPieAPI._auth_via_basic] *)
Definition _auth_via_basic (user password : pyval) : M API unit :=
  API.auth user password.

(** [TastyPieAPI._auth_via_api_key] *)
Definition _auth_via_api_key (user api_key : pyval) : M API unit :=
  let key := "Authorization" in
  let value := "ApiKey " +:+ Py.str user +:+ ":" +:+ Py.str api_key in
  on_request (request.add_header key value).

(** [getattr(self, name)] for a name that [auth] then calls with two
    positional arguments. *)
Definition getattr_callable (name : string) : M API (pyval -> pyval -> M API unit) :=
  self <- me ;;
  if String.eqb name "_auth_via_api_key" then ret _auth_via_api_key
  else if String.eqb name "_auth_via_basic" then ret _auth_via_basic
  else match attrs self !! name with
       | None => raise (AttributeError
                          ("'TastyPieAPI' object has no attribute '" +:+ name +:+ "'"))
       | Some _ => raise (TypeError "object is not callable")
       end.

(** [TastyPieAPI.auth] *)
Definition auth (user secret : pyval) : M API unit :=
  self <- me ;;
  if bool_decide (meta_auth_mech (_meta self) ∈ meta_auth_mechanizms (_meta self))
  then
    func <- getattr_callable ("_auth_via_" +:+ meta_auth_mech (_meta self)) ;;
    func user secret
  else raise (dRestAPIError "Unknown TastyPie auth mechanism.").

(** [data.keys()]; a body that is not a mapping has no [keys]. *)
Definition keys (data : json) : M API (list string) :=
  match data with
  | JObj members => ret (fst <$> members)
  | _ => raise (AttributeError
                  ("'" +:+ Py.type_name data +:+ "' object has no attribute 'keys'"))
  end.

(** [TastyPieAPI.find_resources] *)
Definition find_resources : M API unit :=
  rd <- API.request "GET" "/" [] ;;
  ks <- keys (snd rd) ;;
  for_each ks (fun resource =>
    self <- me ;;
    if bool_decide (resource ∈ _resources self) then ret tt
    else API.add_resource resource None None).

(** [TastyPieAPI.__init__]: the outcome of construction and the object as
    construction left it.  [inherited] is what every instance has from
    [object] and [MetaMixin]. *)
Definition __init__ (inherited : list string) (m : api.Meta)
    (server : list call -> string -> string -> params -> result (response * json))
    (self_repr : string) : result unit * API :=
  (if meta_auto_detect_resources m then find_resources else ret tt)
    (API.__init__ (TastyPieAPI_members inherited) m server self_repr).

End TastyPieAPI.

End api.

(** ** Sample objects *)

Module sample.

Definition ok : response := {| status := 200; reason := "OK" |}.

Definition not_found : response := {| status := 404; reason := "NOT FOUND" |}.

Definition users_schema : json :=
  JObj [("allowed_detail_http_methods", JArr [JStr "get"; JStr "put"]);
        ("default_format", JStr "application/json")].

Definition root_listing : json :=
  JObj [("users", JObj [("list_endpoint", JStr "/api/v0/users/");
                        ("schema", JStr "/api/v0/users/schema/")]);
        ("projects", JObj [("list_endpoint", JStr "/api/v0/projects/");
                           ("schema", JStr "/api/v0/projects/schema/")])].

(** A TastyPie-like server: the API root lists two resources, the users
    schema is served, user 999 does not exist, everything else succeeds
    with an empty object. *)
Definition server (_ : list call) (method path : string) (_ : params)
    : result (response * json) :=
  if String.eqb path "/" then Ok (ok, root_listing)
  else if String.eqb path "users/schema" then Ok (ok, users_schema)
  else if String.eqb path "/users/999"
       then Raise (dRestRequestError "Received HTTP Code 404 - NOT FOUND"
                     not_found (JStr "no such user"))
  else Ok (ok, JObj []).

(** A server on which every request fails with a 404. *)
Definition failing_server (_ : list call) (_ _ : string) (_ : params)
    : result (response * json) :=
  Raise (dRestRequestError "Received HTTP Code 404 - NOT FOUND" not_found
           (JStr "no such page")).

(** A server whose every body, the schema included, is an empty object. *)
Definition empty_server (_ : list call) (_ _ : string) (_ : params)
    : result (response * json) :=
  Ok (ok, JObj []).

(** A server whose API root is a list, not a mapping. *)
Definition list_server (_ : list call) (_ _ : string) (_ : params)
    : result (response * json) :=
  Ok (ok, JArr [JStr "users"; JStr "projects"]).

(** A server whose API root lists resources named [users] and [auth]. *)
Definition auth_listing_server (_ : list call) (_ _ : string) (_ : params)
    : result (response * json) :=
  Ok (ok, JObj [("users", JObj []); ("auth", JObj [])]).

Definition transport (srv : list call -> string -> string -> params
                            -> result (response * json)) : RequestHandler :=
  {| received := []; outcome := srv |}.

(** The handler [add_resource('users')] builds. *)
Definition users : resource.ResourceHandler :=
  {| resource._meta := {| resource.meta_baseurl := Some "http://localhost:8000/api/v0/";
                          resource.meta_name := "users";
                          resource.meta_path := "users";
                          resource.meta_schema := JNull |};
     resource.filter := resource.default_filter |}.

(** A subclass whose [filter] hook quotes every parameter value. *)
Definition quote (ps : params) : params :=
  (fun kv => (fst kv, "'" +:+ snd kv +:+ "'")) <$> ps.

Definition QuotingResourceHandler : resource.ResourceClass :=
  {| resource.class_filter := quote |}.

Definition quoting_users : resource.ResourceHandler :=
  {| resource._meta := resource._meta users; resource.filter := quote |}.

Definition meta : api.Meta :=
  api.with_baseurl "http://localhost:8000/api/v0/" api.TastyPieAPI.Meta.

(** What [dir(object())] lists on Python 3, and the [__dict__], [__module__]
    and [__weakref__] of an instance of a user-defined class. *)
Definition inherited : list string :=
  ["__class__"; "__delattr__"; "__dict__"; "__dir__"; "__doc__"; "__eq__";
   "__format__"; "__ge__"; "__getattribute__"; "__getstate__"; "__gt__";
   "__hash__"; "__init__"; "__init_subclass__"; "__le__"; "__lt__";
   "__module__"; "__ne__"; "__new__"; "__reduce__"; "__reduce_ex__";
   "__repr__"; "__setattr__"; "__sizeof__"; "__str__"; "__subclasshook__";
   "__weakref__"].

(** A connection before discovery has run. *)
Definition connection : api.API :=
  api.API.__init__ (api.TastyPieAPI_members inherited) meta server
    "<drest.api.TastyPieAPI object>".

(** A connection constructed with [auth_mech=mech] and
    [auth_mechanizms=mechs]. *)
Definition configured (mech : string) (mechs : list string) : api.API :=
  api.API.__init__ (api.TastyPieAPI_members inherited)
    {| api.meta_baseurl := Some "http://localhost:8000/api/v0/";
       api.meta_resource := resource.TastyPieResourceHandler;
       api.meta_ignore_ssl_validation := false;
       api.meta_auto_detect_resources := true;
       api.meta_auth_mech := mech;
       api.meta_auth_mechanizms := mechs |}
    server "<drest.api.TastyPieAPI object>".

End sample.

(** ** Vocabulary of the statements *)

(** The verb methods of a resource handler, as calls. *)
Inductive verb :=
| Get (resource_id : pyval) (ps : params)
| Post (ps : params)
| Create (ps : params)
| Put (resource_id : pyval) (ps : params)
| Update (resource_id : pyval) (ps : params)
| Delete (resource_id : pyval) (ps : params).

Definition run (self : resource.ResourceHandler) (v : verb)
    : M RequestHandler (response * json) :=
  match v with
  | Get rid ps => resource.get self rid ps
  | Post ps => resource.post self ps
  | Create ps => resource.create self ps
  | Put rid ps => resource.put self rid ps
  | Update rid ps => resource.update self rid ps
  | Delete rid ps => resource.delete self rid ps
  end.

(** [m], started on the request handler [t], makes exactly one call on it:
    the HTTP request [method path], with some parameters. *)
Definition sends {A} (m : M RequestHandler A) (t : RequestHandler)
    (method path : string) : Prop :=
  exists ps, snd (m t) = request.record (Request method path ps) t.

(** An error message annotated with the resource name and a resource id. *)
Definition with_name_and_id (msg name : string) (resource_id : pyval) : string :=
  msg +:+ " (resource: " +:+ name +:+ ", id: " +:+ Py.str resource_id +:+ ")".

(** An error message annotated with the resource name only. *)
Definition with_name (msg name : string) : string :=
  msg +:+ " (resource: " +:+ name +:+ ")".

(** The annotation each verb puts on the message of a request error. *)
Definition annotated (self : resource.ResourceHandler) (v : verb) (msg : string) : string :=
  match v with
  | Get rid _ | Put rid _ | Update rid _ | Delete rid _ =>
      with_name_and_id msg (resource.meta_name (resource._meta self)) rid
  | Post _ | Create _ => with_name msg (resource.meta_name (resource._meta self))
  end.

(** The connection [self] with its request handler in state [t]. *)
Definition with_request (t : RequestHandler) (self : api.API) : api.API :=
  {| api._meta := api._meta self; api.attrs := api.attrs self;
     api._resources := api._resources self; api._request := t;
     api.repr := api.repr self |}.

(** The handler that [add_resource(name)] attaches on a connection with meta
    [m], when it succeeds: name and path are [name], the path stripped of
    leading and trailing slashes. *)
Definition handler_for (m : api.Meta) (name : string) : resource.ResourceHandler :=
  {| resource._meta := {| resource.meta_baseurl := api.meta_baseurl m;
                          resource.meta_name := name;
                          resource.meta_path := Py.rstrip "/" (Py.lstrip "/" name);
                          resource.meta_schema := JNull |};
     resource.filter := resource.class_filter (api.meta_resource m) |}.

(** The message of the error [add_resource] raises for a taken name. *)
Definition already_exists (name : string) (self : api.API) : string :=
  "The object '" +:+ name +:+ "' already exist on '" +:+ api.repr self +:+ "'".

(** A connection on which [users] is registered. *)
Definition with_users : api.API :=
  snd (api.API.add_resource "users" None None sample.connection).

(** The connection after a successful [add_resource(name)]. *)
Definition register (self : api.API) (name : string) : api.API :=
  api.append_resource name (api.setattr name (handler_for (api._meta self) name) self).

(** ** Vocabulary of the further statements *)

(** [s.startswith(c)] for a one-character [c]. *)
Definition begins (c : ascii) (s : string) : bool :=
  match s with
  | EmptyString => false
  | String a _ => Ascii.eqb a c
  end.

(** [s.endswith(c)] for a one-character [c]. *)
Fixpoint ends (c : ascii) (s : string) : bool :=
  match s with
  | EmptyString => false
  | String a EmptyString => Ascii.eqb a c
  | String _ s' => ends c s'
  end.

(** The path [add_resource(name, path=path)] hands to the handler
    constructor. *)
Definition path_argument (name : string) (path : option string) : string :=
  if negb (resource.provided path) then name else Py.lstrip "/" (default "" path).

(** What one can do with a connection after construction. *)
Inductive action :=
| AddResource (name : string) (resource_handler : option resource.ResourceClass)
    (path : option string)
| Auth (user secret : pyval)
| BasicAuth (user password : pyval)
| RawRequest (method path : string) (ps : params)
| FindResources
| CallResource (name : string) (v : verb).

(** The connection after an action, whether it returned or raised. *)
Definition perform (self : api.API) (a : action) : api.API :=
  match a with
  | AddResource name resource_handler path =>
      snd (api.API.add_resource name resource_handler path self)
  | Auth user secret => snd (api.TastyPieAPI.auth user secret self)
  | BasicAuth user password => snd (api.API.auth user password self)
  | RawRequest method path ps => snd (api.API.request method path ps self)
  | FindResources => snd (api.TastyPieAPI.find_resources self)
  | CallResource name v => snd (api.on_resource name (fun h => run h v) self)
  end.

(** The [resources] listing and the attached handlers agree: no name is
    listed twice, the listed names are exactly the attributes that hold a
    resource handler, and each handler carries the name it is attached under
    (never the empty name) and a path without a slash at either end. *)
Definition consistent (self : api.API) : Prop :=
  NoDup (api._resources self)
  /\ (forall n, n ∈ api._resources self
               <-> exists h, api.attrs self !! n = Some (api.Resource h))
  /\ (forall n h, api.attrs self !! n = Some (api.Resource h) ->
        resource.meta_name (resource._meta h) = n
        /\ n <> ""
        /\ begins "/" (resource.meta_path (resource._meta h)) = false
        /\ ends "/" (resource.meta_path (resource._meta h)) = false).

(** The loop body of [find_resources]. *)
Definition register_unless_listed (resource : string) : M api.API unit :=
  bind api.me (fun self =>
    if bool_decide (resource ∈ api._resources self) then ret tt
    else api.API.add_resource resource None None).

(** The connection right after the discovery request [GET /] was made. *)
Definition asked (self : api.API) : api.API :=
  with_request (request.record (Request "GET" "/" []) (api._request self)) self.

(** * Properties *)

(** ** Python values on examples *)

Example str_int_234 : Py.str (PInt 234) = "234".
Proof. reflexivity. Qed.

Example str_int_neg : Py.str (PInt (-17)) = "-17".
Proof. reflexivity. Qed.

Example str_int_zero : Py.str (PInt 0) = "0".
Proof. reflexivity. Qed.

Example rstrip_uri : Py.rstrip "/" "/api/v1/users/234//" = "/api/v1/users/234".
Proof. reflexivity. Qed.

Example lstrip_path : Py.lstrip "/" "//users/" = "users/".
Proof. reflexivity. Qed.

Example split_uri : Py.split "/" "/api/v1/users/234" = [""; "api"; "v1"; "users"; "234"].
Proof. reflexivity. Qed.

Example split_empty : Py.split "/" "" = [""].
Proof. reflexivity. Qed.

Example users_as_constructed :
  resource.__init__ resource.TastyPieResourceHandler
    (Some "http://localhost:8000/api/v0/") (Some "users") (Some "/users/")
    resource.Instantiated
  = Ok sample.users.
Proof. reflexivity. Qed.

Example quoting_users_as_constructed :
  resource.__init__ sample.QuotingResourceHandler
    (Some "http://localhost:8000/api/v0/") (Some "users") (Some "users")
    resource.Instantiated
  = Ok sample.quoting_users.
Proof. reflexivity. Qed.

Example nameless_handler_refused :
  resource.__init__ resource.RESTResourceHandler None None (Some "users")
    resource.Uninstantiated
  = Raise (dRestResourceError "name required").
Proof. reflexivity. Qed.

(** ** Python string operations *)

Section PyStrings.

Variable c : ascii.

Lemma split_nonempty (s : string) : Py.split c s <> [].
Proof.
  induction s as [|a s IH]; simpl; [discriminate|].
  destruct (Ascii.eqb a c); [discriminate|].
  destruct (Py.split c s); discriminate.
Qed.

Lemma split_lacks (s : string) : Py.lacks c s = true -> Py.split c s = [s].
Proof.
  induction s as [|a s IH]; simpl; [reflexivity|].
  intros Hl. apply andb_true_iff in Hl as [Ha Hs].
  apply negb_true_iff in Ha. rewrite Ha, (IH Hs). reflexivity.
Qed.

(** [(p + c + q).split(c) == p.split(c) + q.split(c)] *)
Lemma split_app (p q : string) :
  Py.split c (p +:+ String c q) = Py.split c p ++ Py.split c q.
Proof.
  induction p as [|a p IH]; simpl.
  - rewrite Ascii.eqb_refl. reflexivity.
  - destruct (Ascii.eqb a c); rewrite IH; [reflexivity|].
    pose proof (split_nonempty p) as Hne.
    destruct (Py.split c p) as [|seg rest]; [congruence|reflexivity].
Qed.

Lemma last_item_split (p q : string) :
  Py.lacks c q = true -> Py.last_item (Py.split c (p +:+ String c q)) = q.
Proof.
  intros Hl. rewrite split_app, (split_lacks q Hl).
  unfold Py.last_item. apply List.last_last.
Qed.

Lemma rstrip_times (k : nat) : Py.rstrip c (Py.times c k) = "".
Proof.
  induction k as [|k IH]; simpl; [reflexivity|].
  rewrite IH, Ascii.eqb_refl. reflexivity.
Qed.

(** Trailing separators do not survive [rstrip]. *)
Lemma rstrip_app_times (s : string) (k : nat) :
  Py.rstrip c (s +:+ Py.times c k) = Py.rstrip c s.
Proof.
  induction s as [|a s IH]; simpl; [apply rstrip_times|].
  rewrite IH. reflexivity.
Qed.

Lemma rstrip_lacks (s : string) :
  Py.lacks c s = true -> Py.rstrip c s = s.
Proof.
  induction s as [|a s IH]; simpl; [reflexivity|].
  intros Hl. apply andb_true_iff in Hl as [Ha Hs].
  apply negb_true_iff in Ha. rewrite (IH Hs), Ha.
  destruct s; reflexivity.
Qed.

(** A string that ends in a non-empty separator-free segment is left alone. *)
Lemma rstrip_app_lacks (p s : string) :
  s <> "" -> Py.lacks c s = true -> Py.rstrip c (p +:+ s) = p +:+ s.
Proof.
  intros Hne Hl. induction p as [|a p IH].
  - apply rstrip_lacks, Hl.
  - change (String a p +:+ s) with (String a (p +:+ s)).
    cbn [Py.rstrip]. rewrite IH.
    destruct p; [destruct s; [congruence|reflexivity]|reflexivity].
Qed.

End PyStrings.

Lemma string_app_assoc (a b d : string) : (a +:+ b) +:+ d = a +:+ (b +:+ d).
Proof.
  induction a as [|x a IH]; [reflexivity|].
  change (String x ((a +:+ b) +:+ d) = String x (a +:+ (b +:+ d))).
  rewrite IH. reflexivity.
Qed.

(** The trailing segment that [get_by_uri] extracts. *)
Lemma trailing_segment (prefix id : string) (k : nat) :
  id <> "" -> Py.lacks "/" id = true ->
  Py.last_item (Py.split "/" (Py.rstrip "/" (prefix +:+ "/" +:+ id +:+ Py.times "/" k))) = id.
Proof.
  intros Hne Hl.
  replace (prefix +:+ "/" +:+ id +:+ Py.times "/" k)
    with ((prefix +:+ "/" +:+ id) +:+ Py.times "/" k)
    by (rewrite !string_app_assoc; reflexivity).
  rewrite rstrip_app_times.
  replace (prefix +:+ "/" +:+ id) with ((prefix +:+ "/") +:+ id)
    by (rewrite !string_app_assoc; reflexivity).
  rewrite rstrip_app_lacks by assumption.
  rewrite string_app_assoc. simpl. apply last_item_split, Hl.
Qed.

(** ** Decimal rendering of integers *)

Lemma uint_lacks_slash (u : Decimal.uint) :
  Py.lacks "/" (NilEmpty.string_of_uint u) = true.
Proof. induction u; simpl; try reflexivity; assumption. Qed.

Lemma str_int_lacks_slash (z : Z) : Py.lacks "/" (Py.str_int z) = true.
Proof.
  unfold Py.str_int, NilZero.string_of_int, NilZero.string_of_uint.
  destruct (Z.to_int z) as [u|u]; destruct u; simpl; try reflexivity;
    apply uint_lacks_slash.
Qed.

Lemma str_int_nonempty (z : Z) : Py.str_int z <> "".
Proof.
  unfold Py.str_int, NilZero.string_of_int, NilZero.string_of_uint.
  destruct (Z.to_int z) as [u|u]; destruct u; simpl; discriminate.
Qed.

(** ** Resource handlers: [get_by_uri] *)

Lemma get_int_as_str (self : resource.ResourceHandler) (n : Z) (ps : params)
    (t : RequestHandler) :
  n <> 0%Z -> resource.get self (PInt n) ps t = resource.get self (PStr (Py.str_int n)) ps t.
Proof.
  intros Hn. unfold resource.get. cbn [Py.truthy Py.str].
  destruct (Z.eqb_spec n 0) as [->|_]; [congruence|].
  destruct (String.eqb_spec (Py.str_int n) "") as [E|_];
    [destruct (str_int_nonempty n E)|].
  reflexivity.
Qed.

(** C2: when the resource URI ends, trailing slashes apart, in the segment
    [id] (non-empty, without a slash), [get_by_uri(uri, params)] is
    [get(id, params)]: same result, same calls on the request handler.  The
    same holds against [get(n, params)] for the integer [n] whose decimal
    rendering is that segment, zero excepted ([get(0)] has no id). *)
Theorem get_by_uri_same_as_get (self : resource.ResourceHandler)
    (prefix id : string) (k : nat) (ps : params) (t : RequestHandler) :
  id <> "" -> Py.lacks "/" id = true ->
  resource.get_by_uri self (prefix +:+ "/" +:+ id +:+ Py.times "/" k) ps t
    = resource.get self (PStr id) ps t
  /\ (forall n : Z, n <> 0%Z -> Py.str (PInt n) = id ->
        resource.get_by_uri self (prefix +:+ "/" +:+ id +:+ Py.times "/" k) ps t
          = resource.get self (PInt n) ps t).
Proof.
  intros Hne Hl.
  assert (resource.get_by_uri self (prefix +:+ "/" +:+ id +:+ Py.times "/" k) ps t
            = resource.get self (PStr id) ps t) as H.
  { unfold resource.get_by_uri. rewrite trailing_segment by assumption. reflexivity. }
  split; [exact H|].
  intros n Hn Hid. rewrite H, get_int_as_str by assumption.
  cbn [Py.str] in Hid. rewrite Hid. reflexivity.
Qed.

Lemma get_by_uri_same_as_get_witness :
  "234" <> "" /\ Py.lacks "/" "234" = true /\
  resource.get_by_uri sample.users "/api/v1/users/234/" [] (sample.transport sample.server)
    = resource.get sample.users (PStr "234") [] (sample.transport sample.server) /\
  resource.get_by_uri sample.users "/api/v1/users/234/" [] (sample.transport sample.server)
    = resource.get sample.users (PInt 234) [] (sample.transport sample.server).
Proof.
  assert ("234" <> "") as Hne by discriminate.
  assert (Py.lacks "/" "234" = true) as Hl by reflexivity.
  destruct (get_by_uri_same_as_get sample.users "/api/v1/users" "234" 1 []
              (sample.transport sample.server) Hne Hl) as [H1 H2].
  split; [exact Hne|]. split; [exact Hl|]. split; [exact H1|].
  apply (H2 234%Z); [discriminate|reflexivity].
Defined.

(** ** Resource handlers: the request each verb issues *)

Lemma record_inj (c c' : call) (t : RequestHandler) :
  request.record c t = request.record c' t -> c = c'.
Proof.
  unfold request.record. intros H.
  assert (received t ++ [c] = received t ++ [c']) as E by congruence.
  apply app_inv_head in E. congruence.
Qed.

(** What a verb does in terms of the one request it makes: the call is
    recorded, a request error comes back annotated, anything else comes back
    as it is. *)
Lemma try_request_unfold (method path : string) (ps : params)
    (h : string -> string) (t : RequestHandler) :
  try_except_request (resource.request method path ps)
    (fun msg resp content => raise (dRestRequestError (h msg) resp content)) t
  = (match outcome t (received t) method path ps with
     | Raise (dRestRequestError msg resp content) =>
         Raise (dRestRequestError (h msg) resp content)
     | other => other
     end, request.record (Request method path ps) t).
Proof.
  unfold try_except_request, resource.request, request.request, raise.
  destruct (outcome t (received t) method path ps) as [a|[]]; reflexivity.
Qed.

Ltac unfold_verb :=
  unfold run, resource.create, resource.update,
    resource.get, resource.post, resource.put, resource.delete;
  rewrite ?try_request_unfold.

Lemma get_call (self : resource.ResourceHandler) (rid : pyval) (ps : params)
    (t : RequestHandler) :
  snd (resource.get self rid ps t)
  = request.record
      (Request "GET"
         (if Py.truthy rid
          then "/" +:+ resource.meta_path (resource._meta self) +:+ "/" +:+ Py.str rid
          else "/" +:+ resource.meta_path (resource._meta self))
         (resource.filter self ps)) t.
Proof. unfold_verb. reflexivity. Qed.

Lemma put_call (self : resource.ResourceHandler) (rid : pyval) (ps : params)
    (t : RequestHandler) :
  snd (resource.put self rid ps t)
  = request.record
      (Request "PUT" ("/" +:+ resource.meta_path (resource._meta self) +:+ "/" +:+ Py.str rid)
         (resource.filter self ps)) t.
Proof. unfold_verb. reflexivity. Qed.

Lemma post_call (self : resource.ResourceHandler) (ps : params) (t : RequestHandler) :
  snd (resource.post self ps t)
  = request.record
      (Request "POST" ("/" +:+ resource.meta_path (resource._meta self))
         (resource.filter self (resource.filter self ps))) t.
Proof. unfold_verb. reflexivity. Qed.

Lemma delete_call (self : resource.ResourceHandler) (rid : pyval) (ps : params)
    (t : RequestHandler) :
  snd (resource.delete self rid ps t)
  = request.record
      (Request "DELETE"
         ("/" +:+ resource.meta_path (resource._meta self) +:+ "/" +:+ Py.str rid) ps) t.
Proof. unfold_verb. reflexivity. Qed.

(** C7, as stated, fails: [get(0)] supplies an id and still requests the
    collection path ['/users'], not ['/users/0']. *)
Lemma get_zero_id_requests_collection :
  snd (resource.get sample.users (PInt 0) [] (sample.transport sample.server))
    = request.record (Request "GET" "/users" []) (sample.transport sample.server)
  /\ ~ sends (resource.get sample.users (PInt 0) []) (sample.transport sample.server)
         "GET" "/users/0".
Proof.
  split; [reflexivity|].
  intros [ps H]. apply record_inj in H. discriminate H.
Qed.

(** C7 (amended): with [p] the handler's path, [get] without an id requests
    ['/p']; [get(id)] requests ['/p/<id>'] for every id that is true as a
    Python value; [put(id, ...)], [update(id, ...)] and [delete(id, ...)]
    request ['/p/<id>'] for every id; [post] and [create] request ['/p']. *)
Theorem verb_request_paths (self : resource.ResourceHandler)
    (resource_id any_id : pyval) (ps : params) (t : RequestHandler) :
  Py.truthy resource_id = true ->
  let p := resource.meta_path (resource._meta self) in
  sends (resource.get self PNone ps) t "GET" ("/" +:+ p)
  /\ sends (resource.get self resource_id ps) t "GET" ("/" +:+ p +:+ "/" +:+ Py.str resource_id)
  /\ sends (resource.put self any_id ps) t "PUT" ("/" +:+ p +:+ "/" +:+ Py.str any_id)
  /\ sends (resource.update self any_id ps) t "PUT" ("/" +:+ p +:+ "/" +:+ Py.str any_id)
  /\ sends (resource.delete self any_id ps) t "DELETE" ("/" +:+ p +:+ "/" +:+ Py.str any_id)
  /\ sends (resource.post self ps) t "POST" ("/" +:+ p)
  /\ sends (resource.create self ps) t "POST" ("/" +:+ p).
Proof.
  intros Hid p. unfold sends, resource.update, resource.create.
  rewrite !get_call, !put_call, !delete_call, !post_call, Hid. cbn [Py.truthy].
  repeat split; eexists; reflexivity.
Qed.

Lemma verb_request_paths_witness :
  Py.truthy (PInt 234) = true /\
  sends (resource.get sample.users (PInt 234) []) (sample.transport sample.server)
    "GET" "/users/234" /\
  sends (resource.delete sample.users (PInt 0) []) (sample.transport sample.server)
    "DELETE" "/users/0".
Proof.
  assert (Py.truthy (PInt 234) = true) as Hid by reflexivity.
  pose proof (verb_request_paths sample.users (PInt 234) (PInt 0) []
                (sample.transport sample.server) Hid) as H.
  split; [exact Hid|]. split; [apply H|apply H].
Defined.

(** ** Resource handlers: request errors *)

(** C3, as stated, fails for [post]: the message of the re-raised error
    names the resource and no id, so it is not the transport's message
    annotated with name and id, whatever the id. *)
Lemma post_error_has_no_id :
  fst (resource.post sample.users [] (sample.transport sample.failing_server))
    = Raise (dRestRequestError "Received HTTP Code 404 - NOT FOUND (resource: users)"
               sample.not_found (JStr "no such page"))
  /\ ~ (exists resource_id,
          fst (resource.post sample.users [] (sample.transport sample.failing_server))
            = Raise (dRestRequestError
                       (with_name_and_id "Received HTTP Code 404 - NOT FOUND" "users"
                          resource_id)
                       sample.not_found (JStr "no such page"))).
Proof.
  split; [reflexivity|].
  intros [rid H]. vm_compute in H. destruct rid; discriminate H.
Qed.

(** C3 (amended): if the request a verb makes raises a request error, the
    verb raises a request error with the same response and content; its
    message is the transport's message followed by
    [" (resource: <name>, id: <id>)"] for [get], [put], [update] and
    [delete], and by [" (resource: <name>)"] for [post] and [create]. *)
Theorem verb_reraises_request_error (self : resource.ResourceHandler) (v : verb)
    (t : RequestHandler) (method path : string) (ps : params)
    (msg : string) (resp : response) (content : json) :
  snd (run self v t) = request.record (Request method path ps) t ->
  fst (request.request method path ps t) = Raise (dRestRequestError msg resp content) ->
  fst (run self v t) = Raise (dRestRequestError (annotated self v msg) resp content).
Proof.
  intros Hcall Hraise. unfold request.request in Hraise. cbn [fst] in Hraise.
  destruct v; unfold_verb; cbn [fst snd];
    (unfold run in Hcall;
     first [ rewrite get_call in Hcall | rewrite post_call in Hcall
           | rewrite put_call in Hcall | rewrite delete_call in Hcall
           | unfold resource.create in Hcall; rewrite post_call in Hcall
           | unfold resource.update in Hcall; rewrite put_call in Hcall ];
     apply record_inj in Hcall; injection Hcall as -> -> ->;
     rewrite Hraise; reflexivity).
Qed.

Lemma verb_reraises_request_error_witness :
  fst (resource.get sample.users (PInt 999) [] (sample.transport sample.server))
    = Raise (dRestRequestError
               "Received HTTP Code 404 - NOT FOUND (resource: users, id: 999)"
               sample.not_found (JStr "no such user")).
Proof.
  apply (verb_reraises_request_error sample.users (Get (PInt 999) [])
           (sample.transport sample.server) "GET" "/users/999" []
           "Received HTTP Code 404 - NOT FOUND" sample.not_found (JStr "no such user"));
    reflexivity.
Defined.

(** A successful result passes through every verb untouched. *)
Lemma verb_passes_result_through (self : resource.ResourceHandler) (v : verb)
    (t : RequestHandler) (method path : string) (ps : params) (r : response * json) :
  snd (run self v t) = request.record (Request method path ps) t ->
  fst (request.request method path ps t) = Ok r ->
  fst (run self v t) = Ok r.
Proof.
  intros Hcall Hok. unfold request.request in Hok. cbn [fst] in Hok.
  destruct v; unfold_verb; cbn [fst snd];
    (unfold run in Hcall;
     first [ rewrite get_call in Hcall | rewrite post_call in Hcall
           | rewrite put_call in Hcall | rewrite delete_call in Hcall
           | unfold resource.create in Hcall; rewrite post_call in Hcall
           | unfold resource.update in Hcall; rewrite put_call in Hcall ];
     apply record_inj in Hcall; injection Hcall as -> -> ->;
     rewrite Hok; reflexivity).
Qed.

(** ** Resource handlers: the [filter] hook *)

(** [get], [put] and [update] hand the request handler [filter(params)]. *)
Lemma get_put_filter_once (self : resource.ResourceHandler) (rid : pyval)
    (ps : params) (t : RequestHandler) :
  (exists path, snd (resource.get self rid ps t)
     = request.record (Request "GET" path (resource.filter self ps)) t)
  /\ (exists path, snd (resource.put self rid ps t)
        = request.record (Request "PUT" path (resource.filter self ps)) t)
  /\ (exists path, snd (resource.update self rid ps t)
        = request.record (Request "PUT" path (resource.filter self ps)) t).
Proof.
  unfold resource.update. rewrite get_call, put_call.
  repeat split; eexists; reflexivity.
Qed.

(** C6 (the code at the failing inputs): with a [filter] hook that quotes
    parameter values, [delete] hands the request handler the unfiltered
    parameters and [post] (hence [create]) hands it the parameters filtered
    twice; neither is [filter(params)]. *)
Theorem delete_and_post_miss_the_filter :
  let ps := [("name", "john")] in
  let t := sample.transport sample.server in
  resource.filter sample.quoting_users ps = [("name", "'john'")]
  /\ snd (resource.delete sample.quoting_users (PInt 1) ps t)
       = request.record (Request "DELETE" "/users/1" [("name", "john")]) t
  /\ snd (resource.post sample.quoting_users ps t)
       = request.record (Request "POST" "/users" [("name", "''john''")]) t
  /\ snd (resource.create sample.quoting_users ps t)
       = request.record (Request "POST" "/users" [("name", "''john''")]) t
  /\ snd (resource.put sample.quoting_users (PInt 1) ps t)
       = request.record (Request "PUT" "/users/1" [("name", "'john'")]) t.
Proof. repeat split. Qed.

(** ** Resource handlers: the [schema] property *)

(** C1, as stated, fails: when the schema endpoint answers with an empty
    object, the body is stored but counts as absent, and the second access
    of [schema] issues a second GET. *)
Lemma schema_empty_body_fetched_twice :
  let s0 := (sample.users, sample.transport sample.empty_server) in
  let s1 := snd (resource.schema s0) in
  let s2 := snd (resource.schema s1) in
  fst (resource.schema s0) = Ok (JObj [])
  /\ resource.meta_schema (resource._meta (fst s1)) = JObj []
  /\ fst (resource.schema s1) = Ok (JObj [])
  /\ request.requests (snd s2)
       = [Request "GET" "users/schema" []; Request "GET" "users/schema" []].
Proof. repeat split. Qed.

(** C1 (amended): for a handler whose schema is not yet set, if the GET to
    ['<path>/schema'] succeeds with a body that is true as a Python value,
    the first access of [schema] issues exactly that one request, stores the
    body and returns it; from then on every access returns the stored body
    and makes no call on the request handler, whatever else the request
    handler has been used for in between. *)
Theorem schema_fetched_once (self : resource.ResourceHandler) (t : RequestHandler)
    (resp : response) (data : json) :
  Py.truthy_json (resource.meta_schema (resource._meta self)) = false ->
  fst (request.request "GET" (resource.meta_path (resource._meta self) +:+ "/schema") [] t)
    = Ok (resp, data) ->
  Py.truthy_json data = true ->
  resource.schema (self, t)
    = (Ok data,
       (resource.set_schema data self,
        request.record
          (Request "GET" (resource.meta_path (resource._meta self) +:+ "/schema") []) t))
  /\ (forall t' : RequestHandler,
        resource.schema (resource.set_schema data self, t')
          = (Ok data, (resource.set_schema data self, t'))).
Proof.
  intros Hunset Hget Hdata. unfold request.request in Hget. cbn [fst] in Hget.
  split.
  - unfold resource.schema, bind, gets, resource.on_request, resource.request,
      request.request, modify, ret.
    cbn [fst snd]. rewrite Hunset. cbn [negb fst snd]. rewrite Hget. reflexivity.
  - intros t'.
    unfold resource.schema, bind, gets, ret. cbn [fst snd resource.set_schema
      resource._meta resource.meta_schema].
    rewrite Hdata. reflexivity.
Qed.

Lemma schema_fetched_once_witness :
  resource.schema (sample.users, sample.transport sample.server)
    = (Ok sample.users_schema,
       (resource.set_schema sample.users_schema sample.users,
        request.record (Request "GET" "users/schema" []) (sample.transport sample.server)))
  /\ (forall t' : RequestHandler,
        resource.schema (resource.set_schema sample.users_schema sample.users, t')
          = (Ok sample.users_schema,
             (resource.set_schema sample.users_schema sample.users, t'))).
Proof.
  apply (schema_fetched_once sample.users (sample.transport sample.server)
           sample.ok sample.users_schema); reflexivity.
Defined.

(** A failed GET stores nothing: the error propagates and the next access
    asks again. *)
Lemma schema_error_stores_nothing (self : resource.ResourceHandler) (t : RequestHandler)
    (e : exn) :
  Py.truthy_json (resource.meta_schema (resource._meta self)) = false ->
  fst (request.request "GET" (resource.meta_path (resource._meta self) +:+ "/schema") [] t)
    = Raise e ->
  resource.schema (self, t)
    = (Raise e,
       (self, request.record
                (Request "GET" (resource.meta_path (resource._meta self) +:+ "/schema") []) t)).
Proof.
  intros Hunset Hget. unfold request.request in Hget. cbn [fst] in Hget.
  unfold resource.schema, bind, gets, resource.on_request, resource.request,
    request.request, modify, ret.
  cbn [fst snd]. rewrite Hunset. cbn [negb fst snd]. rewrite Hget. reflexivity.
Qed.

(** ** Connections: authentication *)

Lemma auth_via_api_key_unfold (self : api.API) (user api_key : pyval) :
  api.TastyPieAPI._auth_via_api_key user api_key self
  = (Ok tt,
     with_request
       (request.record
          (AddHeader "Authorization" ("ApiKey " +:+ Py.str user +:+ ":" +:+ Py.str api_key))
          (api._request self)) self).
Proof. reflexivity. Qed.

Lemma auth_via_basic_unfold (self : api.API) (user password : pyval) :
  api.TastyPieAPI._auth_via_basic user password self
  = (Ok tt,
     with_request (request.record (SetAuthCredentials user password) (api._request self))
       self).
Proof. reflexivity. Qed.

Lemma auth_unfold_api_key (self : api.API) (user secret : pyval) :
  api.meta_auth_mech (api._meta self) = "api_key" ->
  "api_key" ∈ api.meta_auth_mechanizms (api._meta self) ->
  api.TastyPieAPI.auth user secret self
  = api.TastyPieAPI._auth_via_api_key user secret self.
Proof.
  intros Hmech Hin. unfold api.TastyPieAPI.auth, bind, api.me.
  rewrite Hmech, bool_decide_eq_true_2 by assumption. reflexivity.
Qed.

Lemma auth_unfold_basic (self : api.API) (user secret : pyval) :
  api.meta_auth_mech (api._meta self) = "basic" ->
  "basic" ∈ api.meta_auth_mechanizms (api._meta self) ->
  api.TastyPieAPI.auth user secret self
  = api.TastyPieAPI._auth_via_basic user secret self.
Proof.
  intros Hmech Hin. unfold api.TastyPieAPI.auth, bind, api.me.
  rewrite Hmech, bool_decide_eq_true_2 by assumption. reflexivity.
Qed.

Lemma auth_unfold_unknown (self : api.API) (user secret : pyval) :
  api.meta_auth_mech (api._meta self) ∉ api.meta_auth_mechanizms (api._meta self) ->
  api.TastyPieAPI.auth user secret self
  = (Raise (dRestAPIError "Unknown TastyPie auth mechanism."), self).
Proof.
  intros Hnin. unfold api.TastyPieAPI.auth, bind, api.me.
  rewrite bool_decide_eq_false_2 by assumption. reflexivity.
Qed.

(** C8: with the [api_key] mechanism selected, [auth(u, k)] succeeds and
    makes exactly one call on the shared request handler,
    [add_header('Authorization', 'ApiKey u:k')]; the connection's meta,
    attributes, resource list and everything else stay as they were. *)
Theorem auth_api_key_adds_authorization_header (self : api.API) (user api_key : pyval) :
  api.meta_auth_mech (api._meta self) = "api_key" ->
  "api_key" ∈ api.meta_auth_mechanizms (api._meta self) ->
  api.TastyPieAPI.auth user api_key self
  = (Ok tt,
     {| api._meta := api._meta self;
        api.attrs := api.attrs self;
        api._resources := api._resources self;
        api._request :=
          {| received := received (api._request self)
                           ++ [AddHeader "Authorization"
                                 ("ApiKey " +:+ Py.str user +:+ ":" +:+ Py.str api_key)];
             outcome := outcome (api._request self) |};
        api.repr := api.repr self |}).
Proof.
  intros Hmech Hin. rewrite auth_unfold_api_key by assumption. reflexivity.
Qed.

Lemma auth_api_key_adds_authorization_header_witness :
  received
    (api._request
       (snd (api.TastyPieAPI.auth (PStr "john.doe")
               (PStr "34547a497326dde80bcaf8bcee43e3d1b5f24cc9") sample.connection)))
  = [AddHeader "Authorization" "ApiKey john.doe:34547a497326dde80bcaf8bcee43e3d1b5f24cc9"].
Proof.
  rewrite (auth_api_key_adds_authorization_header sample.connection (PStr "john.doe")
             (PStr "34547a497326dde80bcaf8bcee43e3d1b5f24cc9"));
    [reflexivity|reflexivity|].
  apply list_elem_of_here.
Defined.

(** C9, as stated, fails in both directions, because the supported set is
    the connection's own [auth_mechanizms]: with ['basic'] configured but
    only ['api_key'] listed, [auth] raises the API error although ['basic']
    is one of the two; with ['oauth'] configured and listed, [auth] raises no
    API error (the attribute lookup fails instead) although ['oauth'] is
    neither of the two. *)
Lemma auth_decided_by_listed_mechanisms :
  fst (api.TastyPieAPI.auth (PStr "john.doe") (PStr "my_password")
         (sample.configured "basic" ["api_key"]))
    = Raise (dRestAPIError "Unknown TastyPie auth mechanism.")
  /\ fst (api.TastyPieAPI.auth (PStr "john.doe") (PStr "token")
            (sample.configured "oauth" ["api_key"; "basic"; "oauth"]))
       = Raise (AttributeError "'TastyPieAPI' object has no attribute '_auth_via_oauth'").
Proof. vm_compute. split; reflexivity. Qed.

(** C9 (amended): [auth] raises an API error exactly when the configured
    mechanism is not in the connection's [auth_mechanizms] (by default
    [['api_key', 'basic']]); when the mechanism is in that list and is
    ['api_key'] it is [_auth_via_api_key], when it is in the list and is
    ['basic'] it is [_auth_via_basic], and both return without error. *)
Theorem auth_raises_iff_unlisted_mechanism (self : api.API) (user secret : pyval) :
  ((exists msg, fst (api.TastyPieAPI.auth user secret self) = Raise (dRestAPIError msg))
   <-> api.meta_auth_mech (api._meta self) ∉ api.meta_auth_mechanizms (api._meta self))
  /\ (api.meta_auth_mech (api._meta self) ∈ api.meta_auth_mechanizms (api._meta self) ->
      api.meta_auth_mech (api._meta self) = "api_key" ->
      api.TastyPieAPI.auth user secret self
        = api.TastyPieAPI._auth_via_api_key user secret self
      /\ fst (api.TastyPieAPI.auth user secret self) = Ok tt)
  /\ (api.meta_auth_mech (api._meta self) ∈ api.meta_auth_mechanizms (api._meta self) ->
      api.meta_auth_mech (api._meta self) = "basic" ->
      api.TastyPieAPI.auth user secret self
        = api.TastyPieAPI._auth_via_basic user secret self
      /\ fst (api.TastyPieAPI.auth user secret self) = Ok tt).
Proof.
  split; [|split].
  - split.
    + intros [msg Hraise] Hin. revert Hraise.
      unfold api.TastyPieAPI.auth, bind, api.me.
      rewrite bool_decide_eq_true_2 by assumption.
      unfold api.TastyPieAPI.getattr_callable, bind, api.me, ret, raise.
      destruct (String.eqb _ "_auth_via_api_key");
        [rewrite auth_via_api_key_unfold; discriminate|].
      destruct (String.eqb _ "_auth_via_basic");
        [rewrite auth_via_basic_unfold; discriminate|].
      destruct (api.attrs self !! _); discriminate.
    + intros Hnin. exists "Unknown TastyPie auth mechanism.".
      rewrite auth_unfold_unknown by assumption. reflexivity.
  - intros Hin Hm. rewrite Hm in Hin.
    rewrite (auth_unfold_api_key self user secret Hm Hin). split; reflexivity.
  - intros Hin Hm. rewrite Hm in Hin.
    rewrite (auth_unfold_basic self user secret Hm Hin). split; reflexivity.
Qed.

Lemma auth_raises_iff_unlisted_mechanism_witness :
  fst (api.TastyPieAPI.auth (PStr "john.doe") (PStr "secret") sample.connection) = Ok tt
  /\ exists msg,
       fst (api.TastyPieAPI.auth (PStr "john.doe") (PStr "secret")
              (sample.configured "digest" ["api_key"; "basic"]))
       = Raise (dRestAPIError msg).
Proof.
  split.
  - destruct (auth_raises_iff_unlisted_mechanism sample.connection (PStr "john.doe")
                (PStr "secret")) as (_ & Hkey & _).
    apply Hkey; [apply list_elem_of_here|reflexivity].
  - destruct (auth_raises_iff_unlisted_mechanism
                (sample.configured "digest" ["api_key"; "basic"]) (PStr "john.doe")
                (PStr "secret")) as ([_ Hraise] & _).
    apply Hraise. cbn. rewrite !not_elem_of_cons.
    repeat split; [discriminate|discriminate|apply not_elem_of_nil].
Defined.

(** ** Connections: registering resources *)

(** The constructor of a resource handler raises resource errors only. *)
Lemma resource_init_raises_resource_error (cls : resource.ResourceClass)
    (baseurl name path : option string) (req : resource.request_arg) (e : exn) :
  resource.__init__ cls baseurl name path req = Raise e ->
  exists msg, e = dRestResourceError msg.
Proof.
  unfold resource.__init__. intros H.
  repeat match type of H with
         | (if ?b then _ else _) = _ => destruct b
         | match ?r with resource.Uninstantiated => _ | _ => _ end = _ => destruct r
         end; inversion H; eauto.
Qed.

(** [add_resource] in one step: the handler is built, then the name is
    checked, then the handler is attached and the name listed. *)
Lemma add_resource_unfold (self : api.API) (name : string)
    (resource_handler : option resource.ResourceClass) (path : option string) :
  api.API.add_resource name resource_handler path self
  = match resource.__init__
            (match resource_handler with
             | None => api.meta_resource (api._meta self)
             | Some cls => cls
             end)
            (api.meta_baseurl (api._meta self)) (Some name)
            (Some (if negb (resource.provided path) then name
                   else Py.lstrip "/" (default "" path)))
            resource.Instantiated with
    | Raise e => (Raise e, self)
    | Ok h =>
        if api.hasattr self name
        then (Raise (dRestResourceError (already_exists name self)), self)
        else (Ok tt, api.append_resource name (api.setattr name h self))
    end.
Proof.
  unfold api.API.add_resource, bind, api.me, api.of_result.
  destruct (resource.__init__ _ _ _ _ _) as [h|e]; [|reflexivity].
  destruct (api.hasattr self name); reflexivity.
Qed.

Lemma add_resource_raise_keeps_state (self : api.API) (name : string)
    (resource_handler : option resource.ResourceClass) (path : option string) (e : exn) :
  fst (api.API.add_resource name resource_handler path self) = Raise e ->
  snd (api.API.add_resource name resource_handler path self) = self.
Proof.
  rewrite add_resource_unfold.
  destruct (resource.__init__ _ _ _ _ _) as [h|e']; [|reflexivity].
  destruct (api.hasattr self name); [reflexivity|discriminate].
Qed.

(** C4: if the connection already has an attribute called [name] (a
    resource registered earlier, or any method, property or field),
    [add_resource(name, ...)] raises a resource error, whatever handler class
    and path are passed, and registers nothing. *)
Theorem add_resource_taken_name_raises (self : api.API) (name : string)
    (resource_handler : option resource.ResourceClass) (path : option string) :
  api.hasattr self name = true ->
  exists msg,
    api.API.add_resource name resource_handler path self
    = (Raise (dRestResourceError msg), self).
Proof.
  intros Htaken. rewrite add_resource_unfold, Htaken.
  destruct (resource.__init__ _ _ _ _ _) as [h|e] eqn:E.
  - eexists. reflexivity.
  - apply resource_init_raises_resource_error in E as [msg ->]. eexists. reflexivity.
Qed.

Lemma add_resource_taken_name_raises_witness :
  api.hasattr with_users "users" = true /\
  exists msg,
    api.API.add_resource "users" None None with_users
    = (Raise (dRestResourceError msg), with_users).
Proof.
  assert (api.hasattr with_users "users" = true) as Htaken by (vm_compute; reflexivity).
  split; [exact Htaken|].
  exact (add_resource_taken_name_raises with_users "users" None None Htaken).
Defined.

(** C10: when [add_resource(name, ...)] fails with the duplicate-name error,
    the connection is left exactly as it was: same [resources] listing, same
    attributes (so nothing new is attached under [name]), same everything
    else. *)
Theorem add_resource_duplicate_keeps_state (self : api.API) (name : string)
    (resource_handler : option resource.ResourceClass) (path : option string) :
  fst (api.API.add_resource name resource_handler path self)
    = Raise (dRestResourceError (already_exists name self)) ->
  api.API.resources (snd (api.API.add_resource name resource_handler path self))
    = api.API.resources self
  /\ api.attrs (snd (api.API.add_resource name resource_handler path self))
       = api.attrs self
  /\ snd (api.API.add_resource name resource_handler path self) = self.
Proof.
  intros Hdup. rewrite (add_resource_raise_keeps_state _ _ _ _ _ Hdup).
  repeat split.
Qed.

Lemma add_resource_duplicate_keeps_state_witness :
  fst (api.API.add_resource "users" None (Some "/people/") with_users)
    = Raise (dRestResourceError
               "The object 'users' already exist on '<drest.api.TastyPieAPI object>'") /\
  api.API.resources (snd (api.API.add_resource "users" None (Some "/people/") with_users))
    = ["users"].
Proof.
  assert (fst (api.API.add_resource "users" None (Some "/people/") with_users)
          = Raise (dRestResourceError (already_exists "users" with_users))) as Hdup
    by (vm_compute; reflexivity).
  split; [exact Hdup|].
  destruct (add_resource_duplicate_keeps_state with_users "users" None (Some "/people/") Hdup)
    as (Hres & _ & _).
  rewrite Hres. vm_compute. reflexivity.
Defined.

(** ** Connections: discovery of resources *)

Lemma add_resource_fresh (self : api.API) (name : string) :
  name <> "" -> api.hasattr self name = false ->
  api.API.add_resource name None None self = (Ok tt, register self name).
Proof.
  intros Hne Hfree. rewrite add_resource_unfold, Hfree.
  unfold resource.__init__, resource.provided. cbn [negb default].
  destruct (String.eqb_spec name "") as [E|_]; [congruence|].
  reflexivity.
Qed.

Lemma hasattr_register (self : api.API) (name other : string) :
  api.hasattr (register self name) other
  = if decide (name = other) then true else api.hasattr self other.
Proof.
  unfold api.hasattr, register. cbn [api.attrs api.append_resource api.setattr].
  rewrite lookup_insert. destruct (decide (name = other)); [|reflexivity].
  apply bool_decide_eq_true_2. eauto.
Qed.

Lemma hasattr_foldl_register (ks : list string) (self : api.API) (other : string) :
  api.hasattr (foldl register self ks) other = true
  <-> other ∈ ks \/ api.hasattr self other = true.
Proof.
  revert self. induction ks as [|k ks IH]; intros self; cbn [foldl].
  - rewrite elem_of_nil. tauto.
  - rewrite IH, hasattr_register, elem_of_cons.
    destruct (decide (k = other)) as [->|Hne]; [tauto|].
    split; [tauto|]. intros [[E|H]|H]; [congruence|tauto|tauto].
Qed.

Lemma lookup_foldl_register (ks : list string) (self : api.API) (k : string) :
  k ∈ ks ->
  api.attrs (foldl register self ks) !! k
  = Some (api.Resource (handler_for (api._meta self) k)).
Proof.
  revert self. induction ks as [|k' ks IH]; intros self Hin; cbn [foldl].
  - apply elem_of_nil in Hin. destruct Hin.
  - destruct (decide (k ∈ ks)) as [Hk|Hk].
    + rewrite (IH _ Hk). reflexivity.
    + apply elem_of_cons in Hin as [->|Hin]; [|contradiction].
      assert (forall l s, k' ∉ l ->
                api.attrs (foldl register s l) !! k' = api.attrs s !! k') as Hkeep.
      { clear. induction l as [|x l IHl]; intros s Hx; cbn [foldl]; [reflexivity|].
        apply not_elem_of_cons in Hx as [Hne Hx]. rewrite (IHl _ Hx).
        unfold register. cbn [api.attrs api.append_resource api.setattr].
        apply lookup_insert_ne. congruence. }
      rewrite (Hkeep _ _ Hk). unfold register.
      cbn [api.attrs api.append_resource api.setattr]. apply lookup_insert_eq.
Qed.

Lemma foldl_register_fields (ks : list string) (self : api.API) :
  api._resources (foldl register self ks) = api._resources self ++ ks
  /\ api._meta (foldl register self ks) = api._meta self
  /\ api._request (foldl register self ks) = api._request self
  /\ api.repr (foldl register self ks) = api.repr self.
Proof.
  revert self. induction ks as [|k ks IH]; intros self; cbn [foldl].
  - rewrite app_nil_r. repeat split.
  - destruct (IH (register self k)) as (Hr & Hm & Ht & Hp).
    rewrite Hr, Hm, Ht, Hp. unfold register.
    cbn [api._resources api._meta api._request api.repr api.append_resource api.setattr].
    rewrite <- app_assoc. repeat split.
Qed.

(** The loop of [find_resources] over names that are all new, non-empty and
    free: each one is registered, in order. *)
Lemma discovery_loop (ks : list string) (self : api.API) :
  NoDup ks ->
  (forall k, k ∈ ks ->
     k <> "" /\ api.hasattr self k = false /\ k ∉ api._resources self) ->
  for_each ks
    (fun resource =>
       bind api.me (fun self =>
         if bool_decide (resource ∈ api._resources self) then ret tt
         else api.API.add_resource resource None None)) self
  = (Ok tt, foldl register self ks).
Proof.
  revert self. induction ks as [|k ks IH]; intros self Hnd Hks; cbn [for_each foldl].
  - reflexivity.
  - apply NoDup_cons in Hnd as [Hk Hnd].
    destruct (Hks k (list_elem_of_here _ _)) as (Hne & Hfree & Hnew).
    unfold bind at 1. unfold bind at 1. unfold api.me at 1.
    rewrite bool_decide_eq_false_2 by assumption.
    rewrite add_resource_fresh by assumption.
    apply IH; [exact Hnd|].
    intros k' Hk'. destruct (Hks k' (list_elem_of_further _ _ _ Hk')) as (Hne' & Hfree' & Hnew').
    assert (k <> k') as Hdiff by (intros ->; contradiction).
    split; [exact Hne'|]. split.
    + rewrite hasattr_register. destruct (decide (k = k')); [contradiction|exact Hfree'].
    + unfold register. cbn [api._resources api.append_resource api.setattr].
      rewrite elem_of_app, list_elem_of_singleton. intros [H|H]; [contradiction|congruence].
Qed.

Lemma hasattr_fresh_connection (members : list string) (m : api.Meta)
    (server : list call -> string -> string -> params -> result (response * json))
    (self_repr name : string) :
  api.hasattr (api.API.__init__ members m server self_repr) name = true
  <-> name ∈ members.
Proof.
  unfold api.hasattr, api.API.__init__. cbn [api.attrs].
  rewrite bool_decide_eq_true.
  rewrite <- not_eq_None_Some, <- not_elem_of_list_to_map.
  rewrite <- list_fmap_compose.
  replace (fst ∘ (fun n : string => (n, api.Member)) <$> members) with members.
  - destruct (decide (name ∈ members)); tauto.
  - induction members as [|x l IHl]; [reflexivity|]. cbn. rewrite <- IHl. reflexivity.
Qed.

(** C5, as stated, fails: when the discovery body lists a name that the
    connection object already uses for something else (here [auth], one of
    its methods), [add_resource] refuses it, discovery ends with a resource
    error, and the registered names are not the keys of the body. *)
Lemma discovery_stops_at_taken_name :
  let r := api.TastyPieAPI.__init__ sample.inherited sample.meta sample.auth_listing_server
             "<drest.api.TastyPieAPI object>" in
  fst r = Raise (dRestResourceError
                   "The object 'auth' already exist on '<drest.api.TastyPieAPI object>'")
  /\ api.API.resources (snd r) = ["users"]
  /\ api.API.resources (snd r) <> fst <$> [("users", JObj []); ("auth", JObj [])].
Proof. vm_compute. repeat split. discriminate. Qed.

(** C5 (amended): if the discovery GET succeeds with a mapping whose keys
    are non-empty and are not already attributes of the connection object
    (neither what every object of the interpreter has, nor a method,
    property or field of the class), construction with auto-detection
    succeeds, the [resources] listing is exactly the list of keys (each once,
    in order), every key is attached as a handler of that name, and the
    object has no attribute besides its own members and those keys. *)
Theorem discovery_registers_listed_names (inherited : list string) (m : api.Meta)
    (server : list call -> string -> string -> params -> result (response * json))
    (self_repr : string) (resp : response) (members : list (string * json)) :
  api.meta_auto_detect_resources m = true ->
  server [] "GET" "/" [] = Ok (resp, JObj members) ->
  NoDup (fst <$> members) ->
  (forall k, k ∈ fst <$> members ->
     k <> "" /\ k ∉ api.TastyPieAPI_members inherited) ->
  fst (api.TastyPieAPI.__init__ inherited m server self_repr) = Ok tt
  /\ api.API.resources (snd (api.TastyPieAPI.__init__ inherited m server self_repr))
       = fst <$> members
  /\ (forall k, k ∈ fst <$> members ->
        api.attrs (snd (api.TastyPieAPI.__init__ inherited m server self_repr)) !! k
        = Some (api.Resource (handler_for m k)))
  /\ (forall name,
        api.hasattr (snd (api.TastyPieAPI.__init__ inherited m server self_repr)) name
          = true
        <-> name ∈ fst <$> members \/ name ∈ api.TastyPieAPI_members inherited).
Proof.
  intros Hauto Hget Hnd Hkeys.
  set (self := api.API.__init__ (api.TastyPieAPI_members inherited) m server self_repr).
  set (asked := with_request (request.record (Request "GET" "/" []) (api._request self)) self).
  assert (api.TastyPieAPI.__init__ inherited m server self_repr
          = (Ok tt, foldl register asked (fst <$> members))) as Hrun.
  { unfold api.TastyPieAPI.__init__. rewrite Hauto. fold self.
    unfold api.TastyPieAPI.find_resources.
    unfold bind at 1. unfold api.API.request, api.on_request, request.request.
    replace (outcome (api._request self) (received (api._request self)) "GET" "/" [])
      with (Ok (A := response * json) (resp, JObj members)) by (symmetry; exact Hget).
    fold asked. unfold bind at 1. cbn [snd api.TastyPieAPI.keys ret].
    apply discovery_loop; [exact Hnd|].
    intros k Hk. destruct (Hkeys k Hk) as [Hne Hfree].
    split; [exact Hne|]. split; [|apply not_elem_of_nil].
    destruct (api.hasattr asked k) eqn:E; [|reflexivity].
    change (api.hasattr self k = true) in E.
    apply hasattr_fresh_connection in E. contradiction. }
  rewrite Hrun. cbn [fst snd].
  destruct (foldl_register_fields (fst <$> members) asked) as (Hres & _).
  split; [reflexivity|]. split; [exact Hres|]. split.
  - intros k Hk. apply (lookup_foldl_register _ asked k Hk).
  - intros name. rewrite hasattr_foldl_register.
    change (api.hasattr asked name) with (api.hasattr self name).
    unfold self. rewrite hasattr_fresh_connection. reflexivity.
Qed.

Lemma discovery_registers_listed_names_witness :
  api.API.resources
    (snd (api.TastyPieAPI.__init__ sample.inherited sample.meta sample.server
            "<drest.api.TastyPieAPI object>"))
  = ["users"; "projects"].
Proof.
  destruct (discovery_registers_listed_names sample.inherited sample.meta sample.server
              "<drest.api.TastyPieAPI object>" sample.ok
              [("users", JObj [("list_endpoint", JStr "/api/v0/users/");
                               ("schema", JStr "/api/v0/users/schema/")]);
               ("projects", JObj [("list_endpoint", JStr "/api/v0/projects/");
                                  ("schema", JStr "/api/v0/projects/schema/")])]
              eq_refl eq_refl) as (_ & Hres & _).
  - apply (bool_decide_unpack _). vm_compute. exact I.
  - intros k Hk. cbn in Hk.
    apply elem_of_cons in Hk as [->|Hk];
      [|apply list_elem_of_singleton in Hk as ->];
      (split; [discriminate|apply (bool_decide_unpack _); vm_compute; exact I]).
  - exact Hres.
Defined.

(** ** Connections: one request handler for all resources *)

(** A method of an attached resource handler runs on the connection's own
    request handler. *)
Lemma resource_runs_on_shared_request (self : api.API) (name : string)
    (h : resource.ResourceHandler) (v : verb) :
  api.attrs self !! name = Some (api.Resource h) ->
  api.on_resource name (fun h => run h v) self
  = (fst (run h v (api._request self)),
     with_request (snd (run h v (api._request self))) self).
Proof.
  intros Hattr. unfold api.on_resource, api.on_request. rewrite Hattr.
  destruct (run h v (api._request self)). reflexivity.
Qed.

(** After [auth], a request made through a resource reaches a request
    handler that has been given the Authorization header. *)
Example header_precedes_resource_request :
  let authed := snd (api.TastyPieAPI.auth (PStr "john.doe") (PStr "k3y") with_users) in
  received
    (api._request
       (snd (api.on_resource "users" (fun h => resource.get h PNone []) authed)))
  = [AddHeader "Authorization" "ApiKey john.doe:k3y"; Request "GET" "/users" []].
Proof. vm_compute. reflexivity. Qed.

(** * Further properties *)

(** ** Stripping slashes *)

Section Strip.

Variable c : ascii.

Lemma lstrip_begins (s : string) : begins c (Py.lstrip c s) = false.
Proof.
  induction s as [|a s IH]; [reflexivity|]. cbn [Py.lstrip].
  destruct (Ascii.eqb a c) eqn:E; [exact IH|]. cbn [begins]. exact E.
Qed.

Lemma rstrip_ends (s : string) : ends c (Py.rstrip c s) = false.
Proof.
  induction s as [|a s IH]; [reflexivity|]. cbn [Py.rstrip].
  destruct (Py.rstrip c s) as [|b r] eqn:E.
  - destruct (Ascii.eqb a c) eqn:Ea; [reflexivity|]. cbn [ends]. exact Ea.
  - exact IH.
Qed.

Lemma rstrip_begins (s : string) :
  begins c s = false -> begins c (Py.rstrip c s) = false.
Proof.
  destruct s as [|a s]; [reflexivity|]. cbn [begins Py.rstrip]. intros Ha.
  destruct (Py.rstrip c s); rewrite ?Ha; cbn [begins]; exact Ha.
Qed.

Lemma rstrip_nonempty (s : string) :
  begins c s = false -> s <> "" -> Py.rstrip c s <> "".
Proof.
  destruct s as [|a s]; [congruence|]. cbn [begins Py.rstrip]. intros Ha _.
  destruct (Py.rstrip c s); rewrite ?Ha; discriminate.
Qed.

Lemma lstrip_times (k : nat) : Py.lstrip c (Py.times c k) = "".
Proof.
  induction k as [|k IH]; [reflexivity|]. cbn [Py.times Py.lstrip].
  rewrite Ascii.eqb_refl. exact IH.
Qed.

End Strip.

(** ** The handler constructor *)

Lemma init_instantiated (cls : resource.ResourceClass) (baseurl : option string)
    (name path : string) :
  resource.__init__ cls baseurl (Some name) (Some path) resource.Instantiated
  = if String.eqb name "" then Raise (dRestResourceError "name required")
    else if String.eqb path "" then Raise (dRestResourceError "path required")
    else Ok {| resource._meta :=
                 {| resource.meta_baseurl := baseurl;
                    resource.meta_name := name;
                    resource.meta_path := Py.rstrip "/" (Py.lstrip "/" path);
                    resource.meta_schema := JNull |};
               resource.filter := resource.class_filter cls |}.
Proof.
  unfold resource.__init__, resource.provided. cbn [negb default].
  destruct (String.eqb name ""); [reflexivity|].
  destruct (String.eqb path ""); reflexivity.
Qed.

Lemma init_ok_fields (cls : resource.ResourceClass) (baseurl name path : option string)
    (req : resource.request_arg) (h : resource.ResourceHandler) :
  resource.__init__ cls baseurl name path req = Ok h ->
  resource.provided name = true /\ resource.provided path = true
  /\ h = {| resource._meta :=
              {| resource.meta_baseurl := baseurl;
                 resource.meta_name := default "" name;
                 resource.meta_path := Py.rstrip "/" (Py.lstrip "/" (default "" path));
                 resource.meta_schema := JNull |};
            resource.filter := resource.class_filter cls |}.
Proof.
  unfold resource.__init__. intros H.
  destruct (resource.provided name); [|discriminate H].
  destruct (resource.provided path); [|discriminate H].
  cbn [negb] in H.
  destruct req; [destruct (negb (resource.provided baseurl)); [discriminate H|]|];
    injection H as <-; repeat split.
Qed.

(** X1: a handler that the constructor returns has a name, and its stored
    path neither begins nor ends with a slash, whatever class, base URL and
    request argument it was built with. *)
Theorem init_strips_path (cls : resource.ResourceClass) (baseurl name path : option string)
    (req : resource.request_arg) (h : resource.ResourceHandler) :
  resource.__init__ cls baseurl name path req = Ok h ->
  resource.meta_name (resource._meta h) <> ""
  /\ name = Some (resource.meta_name (resource._meta h))
  /\ begins "/" (resource.meta_path (resource._meta h)) = false
  /\ ends "/" (resource.meta_path (resource._meta h)) = false.
Proof.
  intros H. apply init_ok_fields in H as (Hname & _ & ->).
  cbn [resource._meta resource.meta_name resource.meta_path].
  destruct name as [n|]; [|discriminate Hname]. cbn [default from_option]. unfold id.
  cbn [resource.provided] in Hname. apply negb_true_iff in Hname.
  split; [intros E; rewrite E in Hname; discriminate Hname|].
  split; [reflexivity|]. split.
  - apply rstrip_begins, lstrip_begins.
  - apply rstrip_ends.
Qed.

Lemma init_strips_path_witness :
  begins "/" (resource.meta_path (resource._meta sample.users)) = false
  /\ ends "/" (resource.meta_path (resource._meta sample.users)) = false.
Proof.
  destruct (init_strips_path resource.TastyPieResourceHandler
              (Some "http://localhost:8000/api/v0/") (Some "users") (Some "/users/")
              resource.Instantiated sample.users eq_refl) as (_ & _ & Hb & He).
  split; [exact Hb|exact He].
Defined.

(** X2: the path check comes before the stripping, so a path made of
    slashes only is accepted and stored as the empty path; [get()] on such a
    handler requests ['/'], and [get(id)] with a true id requests
    ['//<id>']. *)
Theorem init_accepts_slash_only_path (cls : resource.ResourceClass)
    (baseurl : option string) (name : string) (k : nat) :
  name <> "" -> (0 < k)%nat ->
  exists h,
    resource.__init__ cls baseurl (Some name) (Some (Py.times "/" k)) resource.Instantiated
      = Ok h
    /\ resource.meta_path (resource._meta h) = ""
    /\ (forall ps t, sends (resource.get h PNone ps) t "GET" "/")
    /\ (forall rid ps t, Py.truthy rid = true ->
          sends (resource.get h rid ps) t "GET" ("//" +:+ Py.str rid)).
Proof.
  intros Hname Hk. rewrite init_instantiated.
  destruct (String.eqb_spec name "") as [E|_]; [congruence|].
  destruct k as [|k]; [lia|]. cbn [Py.times String.eqb].
  change (String "/" (Py.times "/" k)) with (Py.times "/" (S k)).
  rewrite lstrip_times. cbn [Py.rstrip].
  eexists. split; [reflexivity|]. cbn [resource._meta resource.meta_path].
  split; [reflexivity|].
  split.
  - intros ps t. unfold sends. rewrite get_call. eexists. reflexivity.
  - intros rid ps t Hrid. unfold sends. rewrite get_call, Hrid. eexists. reflexivity.
Qed.

Lemma init_accepts_slash_only_path_witness :
  exists h,
    resource.__init__ resource.RESTResourceHandler None (Some "users") (Some "//")
      resource.Instantiated = Ok h
    /\ resource.meta_path (resource._meta h) = "".
Proof.
  assert ("users" <> "") as Hname by discriminate.
  assert (0 < 2)%nat as Hk by lia.
  destruct (init_accepts_slash_only_path resource.RESTResourceHandler None "users" 2
              Hname Hk) as (h & Hinit & Hpath & _).
  exists h. split; [exact Hinit|exact Hpath].
Defined.

(** ** Registering resources, continued *)

Lemma add_resource_path_argument (self : api.API) (name : string)
    (resource_handler : option resource.ResourceClass) (path : option string) :
  api.API.add_resource name resource_handler path self
  = match resource.__init__
            (match resource_handler with
             | None => api.meta_resource (api._meta self)
             | Some cls => cls
             end)
            (api.meta_baseurl (api._meta self)) (Some name)
            (Some (path_argument name path)) resource.Instantiated with
    | Raise e => (Raise e, self)
    | Ok h =>
        if api.hasattr self name
        then (Raise (dRestResourceError (already_exists name self)), self)
        else (Ok tt, api.append_resource name (api.setattr name h self))
    end.
Proof. apply add_resource_unfold. Qed.

(** Every run of [add_resource] either raises and leaves the connection as
    it was, or attaches a freshly built handler under a free name. *)
Lemma add_resource_cases (self : api.API) (name : string)
    (resource_handler : option resource.ResourceClass) (path : option string) :
  (exists msg, api.API.add_resource name resource_handler path self
               = (Raise (dRestResourceError msg), self))
  \/ (exists h,
        api.API.add_resource name resource_handler path self
          = (Ok tt, api.append_resource name (api.setattr name h self))
        /\ api.hasattr self name = false
        /\ name <> "" /\ path_argument name path <> ""
        /\ h = {| resource._meta :=
                    {| resource.meta_baseurl := api.meta_baseurl (api._meta self);
                       resource.meta_name := name;
                       resource.meta_path :=
                         Py.rstrip "/" (Py.lstrip "/" (path_argument name path));
                       resource.meta_schema := JNull |};
                  resource.filter :=
                    resource.class_filter
                      (match resource_handler with
                       | None => api.meta_resource (api._meta self)
                       | Some cls => cls
                       end) |}).
Proof.
  rewrite add_resource_path_argument, init_instantiated.
  destruct (String.eqb_spec name "") as [_|Hname]; [left; eauto|].
  destruct (String.eqb_spec (path_argument name path) "") as [_|Hpath]; [left; eauto|].
  destruct (api.hasattr self name) eqn:Hattr; [left; eauto|].
  right. eexists. repeat split; assumption.
Qed.

(** X3: [add_resource(name, handler, path)] returns normally exactly when
    the name is non-empty, the connection has no attribute of that name, and
    the path (the name when no path is given, otherwise the given path
    without its leading slashes) is non-empty; in every other case it raises
    a resource error. *)
Theorem add_resource_succeeds_iff (self : api.API) (name : string)
    (resource_handler : option resource.ResourceClass) (path : option string) :
  (fst (api.API.add_resource name resource_handler path self) = Ok tt
   <-> (name <> "" /\ path_argument name path <> "" /\ api.hasattr self name = false))
  /\ (fst (api.API.add_resource name resource_handler path self) = Ok tt
      \/ exists msg, fst (api.API.add_resource name resource_handler path self)
                     = Raise (dRestResourceError msg)).
Proof.
  rewrite add_resource_path_argument, init_instantiated.
  destruct (String.eqb_spec name "") as [Hname|Hname].
  { split; [|right; eauto]. split; [discriminate|]. intros (H & _); contradiction. }
  destruct (String.eqb_spec (path_argument name path) "") as [Hpath|Hpath].
  { split; [|right; eauto]. split; [discriminate|]. intros (_ & H & _); contradiction. }
  destruct (api.hasattr self name) eqn:Hattr.
  { split; [|right; eauto]. split; [discriminate|]. intros (_ & _ & H); discriminate H. }
  split; [|left; reflexivity]. split; [intros _; repeat split; assumption|reflexivity].
Qed.

(** X4: when [add_resource] returns, the name is appended to [resources],
    the attribute [name] holds a new handler with that name, the stripped
    path and the filter of the chosen class, no schema yet; every other
    attribute and the request handler are as before. *)
Theorem add_resource_registers (self : api.API) (name : string)
    (resource_handler : option resource.ResourceClass) (path : option string) :
  fst (api.API.add_resource name resource_handler path self) = Ok tt ->
  let self' := snd (api.API.add_resource name resource_handler path self) in
  api.API.resources self' = api.API.resources self ++ [name]
  /\ (exists h,
        api.attrs self' !! name = Some (api.Resource h)
        /\ resource.meta_name (resource._meta h) = name
        /\ resource.meta_path (resource._meta h)
             = Py.rstrip "/" (Py.lstrip "/" (path_argument name path))
        /\ resource.meta_baseurl (resource._meta h) = api.meta_baseurl (api._meta self)
        /\ resource.meta_schema (resource._meta h) = JNull
        /\ resource.filter h
             = resource.class_filter
                 (match resource_handler with
                  | None => api.meta_resource (api._meta self)
                  | Some cls => cls
                  end))
  /\ (forall other, other <> name -> api.attrs self' !! other = api.attrs self !! other)
  /\ api._request self' = api._request self
  /\ api.hasattr self name = false.
Proof.
  intros Hok self'. subst self'.
  destruct (add_resource_cases self name resource_handler path)
    as [[msg Hrun]|(h & Hrun & Hfree & _ & _ & ->)];
    rewrite Hrun in *; [discriminate Hok|].
  cbn [snd api.API.resources api._resources api.attrs api._request
       api.append_resource api.setattr].
  split; [reflexivity|]. split.
  - eexists. split; [apply lookup_insert_eq|]. repeat split.
  - split; [|split; [reflexivity|exact Hfree]].
    intros other Hother. apply lookup_insert_ne. congruence.
Qed.

Lemma add_resource_registers_witness :
  api.API.resources (snd (api.API.add_resource "users" None (Some "/people/")
                            sample.connection)) = ["users"]
  /\ exists h,
       api.attrs (snd (api.API.add_resource "users" None (Some "/people/")
                         sample.connection)) !! "users" = Some (api.Resource h)
       /\ resource.meta_path (resource._meta h) = "people".
Proof.
  assert (fst (api.API.add_resource "users" None (Some "/people/") sample.connection)
          = Ok tt) as Hok by (vm_compute; reflexivity).
  destruct (add_resource_registers sample.connection "users" None (Some "/people/") Hok)
    as (Hres & (h & Hattr & _ & Hpath & _) & _).
  split; [exact Hres|]. exists h. split; [exact Hattr|]. rewrite Hpath. reflexivity.
Defined.

(** X5: registering the same name twice fails: after a successful
    [add_resource(name, ...)], any further [add_resource(name, ...)], with
    whatever class and path, raises a resource error and changes nothing. *)
Theorem add_resource_twice_raises (self : api.API) (name : string)
    (handler1 handler2 : option resource.ResourceClass) (path1 path2 : option string) :
  fst (api.API.add_resource name handler1 path1 self) = Ok tt ->
  exists msg,
    api.API.add_resource name handler2 path2
      (snd (api.API.add_resource name handler1 path1 self))
    = (Raise (dRestResourceError msg), snd (api.API.add_resource name handler1 path1 self)).
Proof.
  intros Hok.
  destruct (add_resource_cases self name handler1 path1)
    as [[msg Hrun]|(h & Hrun & _)]; rewrite Hrun in *; [discriminate Hok|].
  cbn [snd].
  destruct (add_resource_cases (api.append_resource name (api.setattr name h self))
              name handler2 path2) as [Hraise|(h' & _ & Hfree & _)]; [exact Hraise|].
  unfold api.hasattr in Hfree. cbn [api.attrs api.append_resource api.setattr] in Hfree.
  rewrite lookup_insert_eq in Hfree.
  apply bool_decide_eq_false in Hfree. destruct Hfree. eauto.
Qed.

Lemma add_resource_twice_raises_witness :
  exists msg,
    api.API.add_resource "users" (Some sample.QuotingResourceHandler) (Some "people")
      with_users
    = (Raise (dRestResourceError msg), with_users).
Proof.
  assert (fst (api.API.add_resource "users" None None sample.connection) = Ok tt) as Hok
    by (vm_compute; reflexivity).
  exact (add_resource_twice_raises sample.connection "users" None
           (Some sample.QuotingResourceHandler) None (Some "people") Hok).
Defined.

(** X6: [add_resource] never overwrites or removes an attribute and never
    touches the request handler: whatever its arguments and outcome, the old
    attribute map is contained in the new one, and [_request], [_meta] and
    [repr] are unchanged. *)
Theorem add_resource_keeps_attributes (self : api.API) (name : string)
    (resource_handler : option resource.ResourceClass) (path : option string) :
  api.attrs self ⊆ api.attrs (snd (api.API.add_resource name resource_handler path self))
  /\ api._request (snd (api.API.add_resource name resource_handler path self))
       = api._request self
  /\ api._meta (snd (api.API.add_resource name resource_handler path self))
       = api._meta self
  /\ api.repr (snd (api.API.add_resource name resource_handler path self))
       = api.repr self.
Proof.
  destruct (add_resource_cases self name resource_handler path)
    as [[msg Hrun]|(h & Hrun & Hfree & _)]; rewrite Hrun; cbn [snd].
  - split; [reflexivity|repeat split].
  - cbn [api.attrs api._request api._meta api.repr api.append_resource api.setattr].
    split; [|repeat split].
    apply insert_subseteq. unfold api.hasattr in Hfree.
    apply bool_decide_eq_false in Hfree. apply eq_None_not_Some. exact Hfree.
Qed.

(** X7: the path stored by a successful [add_resource] is empty in one case
    only: no path was given and the name consists of slashes; with an
    explicit path, or a name that has any other character, the handler's
    path is non-empty. *)
Theorem add_resource_empty_path_iff (self : api.API) (name : string)
    (resource_handler : option resource.ResourceClass) (path : option string) :
  fst (api.API.add_resource name resource_handler path self) = Ok tt ->
  forall h,
    api.attrs (snd (api.API.add_resource name resource_handler path self)) !! name
      = Some (api.Resource h) ->
    (resource.meta_path (resource._meta h) = ""
     <-> resource.provided path = false /\ Py.lstrip "/" name = "").
Proof.
  intros Hok h Hattr.
  destruct (add_resource_cases self name resource_handler path)
    as [[msg Hrun]|(h' & Hrun & _ & _ & Hpath & ->)];
    rewrite Hrun in *; [discriminate Hok|].
  cbn [snd api.attrs api.append_resource api.setattr] in Hattr.
  rewrite lookup_insert_eq in Hattr. injection Hattr as <-.
  cbn [resource._meta resource.meta_path].
  unfold path_argument in *. destruct (resource.provided path); cbn [negb] in *.
  - split; [|intros [H _]; discriminate H]. intros Hempty. exfalso.
    revert Hempty. apply rstrip_nonempty.
    + apply lstrip_begins.
    + intros E. apply Hpath.
      destruct (Py.lstrip "/" (default "" path)) as [|a r] eqn:El; [reflexivity|].
      pose proof (lstrip_begins "/" (default "" path)) as Hb. rewrite El in *.
      cbn [Py.lstrip] in E. cbn [begins] in Hb. rewrite Hb in E. discriminate E.
  - split.
    + intros Hempty. split; [reflexivity|].
      destruct (Py.lstrip "/" name) as [|a r] eqn:El; [reflexivity|]. exfalso.
      revert Hempty. apply rstrip_nonempty; [|discriminate].
      rewrite <- El. apply lstrip_begins.
    + intros [_ ->]. reflexivity.
Qed.

Lemma add_resource_empty_path_iff_witness :
  exists h,
    api.attrs (snd (api.API.add_resource "//" None None sample.connection)) !! "//"
      = Some (api.Resource h)
    /\ resource.meta_path (resource._meta h) = "".
Proof.
  assert (fst (api.API.add_resource "//" None None sample.connection) = Ok tt) as Hok
    by (vm_compute; reflexivity).
  exists (handler_for sample.meta "//").
  assert (api.attrs (snd (api.API.add_resource "//" None None sample.connection)) !! "//"
          = Some (api.Resource (handler_for sample.meta "//"))) as Hattr
    by (vm_compute; reflexivity).
  split; [exact Hattr|].
  apply (add_resource_empty_path_iff sample.connection "//" None None Hok _ Hattr).
  split; reflexivity.
Defined.

(** ** The invariant of a connection *)

Lemma for_each_invariant {S A} (P : S -> Prop) (body : A -> M S unit) (l : list A) :
  (forall x s, P s -> P (snd (body x s))) ->
  forall s, P s -> P (snd (for_each l body s)).
Proof.
  intros Hbody. induction l as [|x l IH]; intros s Hs; [exact Hs|].
  cbn [for_each]. unfold bind. specialize (Hbody x s Hs).
  destruct (body x s) as [[[]|e] s']; cbn [snd] in *; [apply IH|]; exact Hbody.
Qed.

Lemma find_resources_unfold (self : api.API) :
  api.TastyPieAPI.find_resources self
  = match fst (request.request "GET" "/" [] (api._request self)) with
    | Raise e => (Raise e, asked self)
    | Ok rd =>
        match snd rd with
        | JObj members => for_each (fst <$> members) register_unless_listed (asked self)
        | body =>
            (Raise (AttributeError
                      ("'" +:+ Py.type_name body +:+ "' object has no attribute 'keys'")),
             asked self)
        end
    end.
Proof.
  unfold api.TastyPieAPI.find_resources, bind, api.API.request, api.on_request,
    request.request. cbn [fst snd]. fold (asked self).
  destruct (outcome (api._request self) (received (api._request self)) "GET" "/" [])
    as [[resp body]|e]; [|reflexivity].
  destruct body; reflexivity.
Qed.

Lemma find_resources_invariant (P : api.API -> Prop) (self : api.API) :
  P (asked self) ->
  (forall s name, P s -> P (snd (api.API.add_resource name None None s))) ->
  P (snd (api.TastyPieAPI.find_resources self)).
Proof.
  intros Hasked Hadd.
  rewrite find_resources_unfold.
  destruct (fst (request.request "GET" "/" [] (api._request self)))
    as [[resp body]|e]; [|exact Hasked].
  destruct body; try exact Hasked. cbn [snd].
  apply for_each_invariant; [|exact Hasked].
  intros k s Hs. unfold register_unless_listed, bind, api.me, ret.
  destruct (bool_decide (k ∈ api._resources s)); [exact Hs|apply Hadd, Hs].
Qed.

Lemma consistent_with_request (self : api.API) (t : RequestHandler) :
  consistent self -> consistent (with_request t self).
Proof. intros H. exact H. Qed.

Lemma consistent_add_resource (self : api.API) (name : string)
    (resource_handler : option resource.ResourceClass) (path : option string) :
  consistent self ->
  consistent (snd (api.API.add_resource name resource_handler path self)).
Proof.
  intros (Hnd & Hiff & Hnames).
  destruct (add_resource_cases self name resource_handler path)
    as [[msg Hrun]|(h & Hrun & Hfree & Hname & _ & Hh)]; rewrite Hrun; cbn [snd].
  { split; [exact Hnd|]. split; [exact Hiff|exact Hnames]. }
  unfold api.hasattr in Hfree. apply bool_decide_eq_false in Hfree.
  apply eq_None_not_Some in Hfree.
  assert (name ∉ api._resources self) as Hnew.
  { intros Hin. apply Hiff in Hin as [h' Hin]. congruence. }
  unfold consistent. cbn [api._resources api.attrs api.append_resource api.setattr].
  split; [|split].
  - apply NoDup_app. split; [exact Hnd|]. split; [|apply NoDup_singleton].
    intros x Hx Hx'. apply list_elem_of_singleton in Hx'. congruence.
  - intros n. rewrite elem_of_app, list_elem_of_singleton.
    destruct (decide (n = name)) as [->|Hne].
    + rewrite lookup_insert_eq. split; [eauto|tauto].
    + rewrite lookup_insert_ne by congruence. rewrite Hiff. tauto.
  - intros n h0 Hlook. destruct (decide (n = name)) as [->|Hne].
    + rewrite lookup_insert_eq in Hlook. injection Hlook as <-. subst h.
      cbn [resource._meta resource.meta_name resource.meta_path].
      repeat split; [exact Hname| |apply rstrip_ends].
      apply rstrip_begins, lstrip_begins.
    + rewrite lookup_insert_ne in Hlook by congruence. exact (Hnames n h0 Hlook).
Qed.

Lemma consistent_on_request {A} (m : M RequestHandler A) (self : api.API) :
  consistent self -> consistent (snd (api.on_request m self)).
Proof.
  intros H. unfold api.on_request. destruct (m (api._request self)). exact H.
Qed.

Lemma auth_cases (self : api.API) (user secret : pyval) :
  (exists e, api.TastyPieAPI.auth user secret self = (Raise e, self))
  \/ api.TastyPieAPI.auth user secret self
     = api.TastyPieAPI._auth_via_api_key user secret self
  \/ api.TastyPieAPI.auth user secret self
     = api.TastyPieAPI._auth_via_basic user secret self.
Proof.
  unfold api.TastyPieAPI.auth, bind, api.me.
  destruct (bool_decide _); [|left; eauto].
  unfold api.TastyPieAPI.getattr_callable, bind, api.me, ret, raise.
  destruct (String.eqb _ "_auth_via_api_key"); [right; left; reflexivity|].
  destruct (String.eqb _ "_auth_via_basic"); [right; right; reflexivity|].
  destruct (api.attrs self !! _); left; eauto.
Qed.

Lemma consistent_perform (self : api.API) (a : action) :
  consistent self -> consistent (perform self a).
Proof.
  intros H. destruct a as [name rh path|user secret|user password|method path ps| |name v];
    cbn [perform].
  - apply consistent_add_resource, H.
  - destruct (auth_cases self user secret) as [[e ->]|[->| ->]]; [exact H| |];
      apply (consistent_on_request _ self H).
  - apply (consistent_on_request _ self H).
  - apply (consistent_on_request _ self H).
  - apply find_resources_invariant; [exact H|].
    intros s name Hs. apply consistent_add_resource, Hs.
  - unfold api.on_resource. destruct (api.attrs self !! name) as [[|h]|]; try exact H.
    apply (consistent_on_request _ self H).
Qed.

Lemma consistent_init (members : list string) (m : api.Meta)
    (server : list call -> string -> string -> params -> result (response * json))
    (self_repr : string) :
  consistent (api.API.__init__ members m server self_repr).
Proof.
  assert (forall n h, api.attrs (api.API.__init__ members m server self_repr) !! n
                      <> Some (api.Resource h)) as Hmember.
  { intros n h Hlook. cbn [api.attrs api.API.__init__] in Hlook.
    apply elem_of_list_to_map_2, list_elem_of_fmap in Hlook as (x & Hx & _).
    discriminate Hx. }
  unfold consistent. split; [apply NoDup_nil_2|]. split.
  - intros n. cbn [api._resources api.API.__init__]. rewrite elem_of_nil.
    split; [tauto|]. intros [h Hh]. exact (Hmember n h Hh).
  - intros n h Hh. destruct (Hmember n h Hh).
Qed.

(** X8: on every connection that can be reached from a freshly constructed
    one by any sequence of [add_resource], [auth], raw requests, discovery
    and resource calls (successful or not), the [resources] listing has no
    duplicates, lists exactly the attributes that hold a resource handler,
    and each of those handlers carries the name it is attached under and a
    path without a slash at either end. *)
Theorem reachable_connection_consistent (members : list string) (m : api.Meta)
    (server : list call -> string -> string -> params -> result (response * json))
    (self_repr : string) (actions : list action) :
  consistent (foldl perform (api.API.__init__ members m server self_repr) actions).
Proof.
  generalize (consistent_init members m server self_repr).
  generalize (api.API.__init__ members m server self_repr).
  induction actions as [|a actions IH]; intros self Hself; cbn [foldl]; [exact Hself|].
  apply IH, consistent_perform, Hself.
Qed.

(** ** Discovery, continued *)

Lemma add_resource_frame (self : api.API) (name : string)
    (resource_handler : option resource.ResourceClass) (path : option string) :
  api.attrs self ⊆ api.attrs (snd (api.API.add_resource name resource_handler path self))
  /\ api._request (snd (api.API.add_resource name resource_handler path self))
       = api._request self
  /\ api._meta (snd (api.API.add_resource name resource_handler path self))
       = api._meta self
  /\ api.repr (snd (api.API.add_resource name resource_handler path self))
       = api.repr self
  /\ api._resources self
       `prefix_of` api._resources (snd (api.API.add_resource name resource_handler path self)).
Proof.
  destruct (add_resource_cases self name resource_handler path)
    as [[msg Hrun]|(h & Hrun & Hfree & _)]; rewrite Hrun; cbn [snd].
  - split; [reflexivity|]. split; [reflexivity|]. split; [reflexivity|].
    split; reflexivity.
  - cbn [api.attrs api._request api._meta api.repr api._resources
         api.append_resource api.setattr].
    split; [|split; [reflexivity|]; split; [reflexivity|]; split; [reflexivity|];
             apply prefix_app_r; reflexivity].
    apply insert_subseteq. unfold api.hasattr in Hfree.
    apply bool_decide_eq_false in Hfree. apply eq_None_not_Some. exact Hfree.
Qed.

(** X9: whatever the server answers and however many names it lists,
    [find_resources] makes exactly one call on the request handler, the
    request [GET /]; it fetches no schema and no resource.  It never removes
    or replaces an attribute, and the names listed in [resources] before
    stay, in the same order, at the front of the list. *)
Theorem find_resources_one_request (self : api.API) :
  api._request (snd (api.TastyPieAPI.find_resources self))
    = request.record (Request "GET" "/" []) (api._request self)
  /\ api.attrs self ⊆ api.attrs (snd (api.TastyPieAPI.find_resources self))
  /\ api._resources self
       `prefix_of` api._resources (snd (api.TastyPieAPI.find_resources self))
  /\ api._meta (snd (api.TastyPieAPI.find_resources self)) = api._meta self.
Proof.
  apply (find_resources_invariant
           (fun s => api._request s
                       = request.record (Request "GET" "/" []) (api._request self)
                     /\ api.attrs self ⊆ api.attrs s
                     /\ api._resources self `prefix_of` api._resources s
                     /\ api._meta s = api._meta self)).
  - repeat split; reflexivity.
  - intros s name (Hreq & Hattrs & Hres & Hmeta).
    destruct (add_resource_frame s name None None) as (Ha & Ht & Hm & _ & Hr).
    split; [congruence|]. split; [etrans; eassumption|].
    split; [etrans; eassumption|congruence].
Qed.

Lemma filter_agree {A} (P Q : A -> Prop) `{!forall x, Decision (P x)}
    `{!forall x, Decision (Q x)} (l : list A) :
  (forall x, x ∈ l -> (P x <-> Q x)) -> filter P l = filter Q l.
Proof.
  induction l as [|x l IH]; intros Hag; [reflexivity|].
  rewrite !filter_cons.
  rewrite IH by (intros y Hy; apply Hag, list_elem_of_further, Hy).
  pose proof (Hag x (list_elem_of_here _ _)) as Hx.
  destruct (decide (P x)), (decide (Q x)); tauto || reflexivity.
Qed.

Lemma attrs_foldl_register_other (l : list string) (self : api.API) (k : string) :
  k ∉ l -> api.attrs (foldl register self l) !! k = api.attrs self !! k.
Proof.
  revert self. induction l as [|x l IH]; intros self Hk; cbn [foldl]; [reflexivity|].
  apply not_elem_of_cons in Hk as [Hne Hk]. rewrite (IH _ Hk).
  unfold register. cbn [api.attrs api.append_resource api.setattr].
  apply lookup_insert_ne. congruence.
Qed.

(** The loop of [find_resources] over any list of distinct names: listed
    names are skipped, the others are registered in order. *)
Lemma discovery_loop_skip (ks : list string) (self : api.API) :
  NoDup ks ->
  (forall k, k ∈ ks -> k ∉ api._resources self ->
     k <> "" /\ api.hasattr self k = false) ->
  for_each ks register_unless_listed self
  = (Ok tt, foldl register self (filter (fun k => k ∉ api._resources self) ks)).
Proof.
  revert self. induction ks as [|k ks IH]; intros self Hnd Hks; [reflexivity|].
  apply NoDup_cons in Hnd as [Hk Hnd].
  cbn [for_each]. unfold bind at 1. unfold register_unless_listed at 1.
  unfold bind, api.me, ret.
  destruct (decide (k ∈ api._resources self)) as [Hin|Hnin].
  - rewrite bool_decide_eq_true_2 by assumption.
    rewrite filter_cons_False by (intros H; exact (H Hin)).
    apply IH; [exact Hnd|].
    intros k' Hk'. apply Hks, list_elem_of_further, Hk'.
  - rewrite bool_decide_eq_false_2 by assumption.
    destruct (Hks k (list_elem_of_here _ _) Hnin) as [Hne Hfree].
    rewrite add_resource_fresh by assumption.
    rewrite filter_cons_True by assumption. cbn [foldl].
    rewrite (filter_agree (fun k0 => k0 ∉ api._resources self)
               (fun k0 => k0 ∉ api._resources (register self k)) ks).
    + apply IH; [exact Hnd|].
      intros k' Hk' Hnew.
      assert (k <> k') as Hdiff by (intros ->; contradiction).
      unfold register in Hnew. cbn [api._resources api.append_resource api.setattr] in Hnew.
      rewrite elem_of_app, list_elem_of_singleton in Hnew.
      destruct (Hks k' (list_elem_of_further _ _ _ Hk')) as [Hne' Hfree']; [tauto|].
      split; [exact Hne'|]. rewrite hasattr_register.
      destruct (decide (k = k')); [contradiction|exact Hfree'].
    + intros k' Hk'. unfold register.
      cbn [api._resources api.append_resource api.setattr].
      rewrite elem_of_app, list_elem_of_singleton.
      assert (k' <> k) by (intros ->; contradiction). tauto.
Qed.

(** X10: [find_resources] on a connection that already has resources: when
    the body is a mapping and each key that is not yet listed is non-empty
    and free, the names already in [resources] are skipped (their handlers
    are kept, not rebuilt) and the remaining keys are appended in the order
    of the body. *)
Theorem find_resources_skips_listed (self : api.API) (resp : response)
    (members : list (string * json)) :
  fst (request.request "GET" "/" [] (api._request self)) = Ok (resp, JObj members) ->
  NoDup (fst <$> members) ->
  (forall k, k ∈ fst <$> members -> k ∉ api._resources self ->
     k <> "" /\ api.hasattr self k = false) ->
  fst (api.TastyPieAPI.find_resources self) = Ok tt
  /\ api.API.resources (snd (api.TastyPieAPI.find_resources self))
       = api.API.resources self
           ++ filter (fun k => k ∉ api.API.resources self) (fst <$> members)
  /\ (forall k, k ∈ api.API.resources self ->
        api.attrs (snd (api.TastyPieAPI.find_resources self)) !! k
          = api.attrs self !! k).
Proof.
  intros Hget Hnd Hks. rewrite find_resources_unfold, Hget. cbn [snd].
  rewrite (discovery_loop_skip (fst <$> members) (asked self) Hnd Hks). cbn [fst snd].
  change (api._resources (asked self)) with (api._resources self).
  unfold api.API.resources.
  destruct (foldl_register_fields
              (filter (fun k => k ∉ api._resources self) (fst <$> members)) (asked self))
    as (Hres & _).
  split; [reflexivity|]. split; [exact Hres|].
  intros k Hk. rewrite attrs_foldl_register_other; [reflexivity|].
  rewrite list_elem_of_filter. tauto.
Qed.

Lemma find_resources_skips_listed_witness :
  api.API.resources (snd (api.TastyPieAPI.find_resources with_users))
    = ["users"; "projects"].
Proof.
  destruct (find_resources_skips_listed with_users sample.ok
              [("users", JObj [("list_endpoint", JStr "/api/v0/users/");
                               ("schema", JStr "/api/v0/users/schema/")]);
               ("projects", JObj [("list_endpoint", JStr "/api/v0/projects/");
                                  ("schema", JStr "/api/v0/projects/schema/")])]
              eq_refl) as (_ & Hres & _).
  - apply (bool_decide_unpack _). vm_compute. exact I.
  - intros k Hk Hnew. cbn in Hk.
    apply elem_of_cons in Hk as [->|Hk];
      [exfalso; apply Hnew; vm_compute; apply list_elem_of_here|].
    apply list_elem_of_singleton in Hk as ->.
    split; [discriminate|vm_compute; reflexivity].
  - rewrite Hres. vm_compute. reflexivity.
Defined.

Lemma for_each_app {S A} (l1 l2 : list A) (body : A -> M S unit) (s : S) :
  for_each (l1 ++ l2) body s
  = match for_each l1 body s with
    | (Ok _, s') => for_each l2 body s'
    | (Raise e, s') => (Raise e, s')
    end.
Proof.
  revert s. induction l1 as [|x l1 IH]; intros s; [reflexivity|].
  cbn [app for_each]. unfold bind.
  destruct (body x s) as [[[]|e] s']; [apply IH|reflexivity].
Qed.

(** X11: discovery is not all-or-nothing.  If the keys of the body are
    [before ++ k :: after], the keys in [before] are new, non-empty and
    free, and [k] is new but empty or already an attribute, then
    [find_resources] raises a resource error, the names in [before] stay
    registered, and nothing of [k :: after] is. *)
Theorem find_resources_stops_at_first_refusal (self : api.API) (resp : response)
    (members : list (string * json)) (before after : list string) (k : string) :
  fst (request.request "GET" "/" [] (api._request self)) = Ok (resp, JObj members) ->
  fst <$> members = before ++ k :: after ->
  NoDup (fst <$> members) ->
  (forall b, b ∈ before ->
     (b ∉ api._resources self) /\ b <> "" /\ api.hasattr self b = false) ->
  k ∉ api._resources self ->
  (k = "" \/ api.hasattr self k = true) ->
  (exists msg, fst (api.TastyPieAPI.find_resources self) = Raise (dRestResourceError msg))
  /\ api.API.resources (snd (api.TastyPieAPI.find_resources self))
       = api.API.resources self ++ before.
Proof.
  intros Hget Hkeys Hnd Hbefore Hnew Hbad.
  rewrite find_resources_unfold, Hget. cbn [snd]. rewrite Hkeys in *.
  apply NoDup_app in Hnd as (Hndb & Hsep & Hnda).
  assert (for_each before register_unless_listed (asked self)
          = (Ok tt, foldl register (asked self) before)) as Hloop.
  { apply discovery_loop; [exact Hndb|].
    intros b Hb. destruct (Hbefore b Hb) as (Hb1 & Hb2 & Hb3).
    split; [exact Hb2|]. split; [exact Hb3|exact Hb1]. }
  destruct (foldl_register_fields before (asked self)) as (Hres & _).
  change (api._resources (asked self)) with (api._resources self) in Hres.
  assert (k ∉ before) as Hkb
    by (intros Hin; apply (Hsep k Hin), list_elem_of_here).
  set (s1 := foldl register (asked self) before) in *.
  assert (k ∉ api._resources s1) as Hnew1.
  { rewrite Hres, elem_of_app. tauto. }
  assert (exists msg, for_each (before ++ k :: after) register_unless_listed (asked self)
                      = (Raise (dRestResourceError msg), s1)) as [msg Hrun].
  { rewrite for_each_app, Hloop. cbn [for_each]. unfold bind at 1.
    unfold register_unless_listed at 1. unfold bind, api.me.
    rewrite bool_decide_eq_false_2 by assumption.
    destruct (add_resource_cases s1 k None None)
      as [[msg Hrun]|(h & _ & Hfree & Hne & _)].
    - rewrite Hrun. eauto.
    - exfalso. destruct Hbad as [->|Htaken]; [congruence|].
      assert (api.hasattr s1 k = true) as Hs1.
      { unfold s1. apply hasattr_foldl_register. right. exact Htaken. }
      congruence. }
  rewrite Hrun. cbn [fst snd]. split; [eauto|]. unfold api.API.resources. exact Hres.
Qed.

Lemma find_resources_stops_at_first_refusal_witness :
  api.API.resources
    (snd (api.TastyPieAPI.find_resources
            (api.API.__init__ (api.TastyPieAPI_members sample.inherited) sample.meta
               sample.auth_listing_server "<drest.api.TastyPieAPI object>")))
  = ["users"].
Proof.
  destruct (find_resources_stops_at_first_refusal
              (api.API.__init__ (api.TastyPieAPI_members sample.inherited) sample.meta
                 sample.auth_listing_server "<drest.api.TastyPieAPI object>")
              sample.ok [("users", JObj []); ("auth", JObj [])] ["users"] [] "auth"
              eq_refl eq_refl) as (_ & Hres).
  - apply (bool_decide_unpack _). vm_compute. exact I.
  - intros b Hb. apply list_elem_of_singleton in Hb as ->.
    split; [apply not_elem_of_nil|]. split; [discriminate|vm_compute; reflexivity].
  - apply not_elem_of_nil.
  - right. vm_compute. reflexivity.
  - exact Hres.
Defined.

(** X12: discovery can be run again: when every key of the body is already
    listed in [resources], [find_resources] returns normally and its only
    effect is the recorded request [GET /]. *)
Theorem find_resources_again_changes_nothing (self : api.API) (resp : response)
    (members : list (string * json)) :
  fst (request.request "GET" "/" [] (api._request self)) = Ok (resp, JObj members) ->
  (forall k, k ∈ fst <$> members -> k ∈ api._resources self) ->
  api.TastyPieAPI.find_resources self = (Ok tt, asked self).
Proof.
  intros Hget Hall. rewrite find_resources_unfold, Hget. cbn [snd].
  assert (forall k, k ∈ fst <$> members -> k ∈ api._resources (asked self)) as H
    by exact Hall.
  induction (fst <$> members) as [|k ks IH]; [reflexivity|].
  cbn [for_each]. unfold bind at 1. unfold register_unless_listed at 1.
  unfold bind, api.me, ret.
  rewrite bool_decide_eq_true_2 by apply H, list_elem_of_here.
  apply IH.
  - intros k' Hk'. apply Hall, list_elem_of_further, Hk'.
  - intros k' Hk'. apply H, list_elem_of_further, Hk'.
Qed.

Lemma find_resources_again_changes_nothing_witness :
  let once := snd (api.TastyPieAPI.__init__ sample.inherited sample.meta sample.server
                     "<drest.api.TastyPieAPI object>") in
  api.TastyPieAPI.find_resources once = (Ok tt, asked once).
Proof.
  intros once.
  apply (find_resources_again_changes_nothing once sample.ok
           [("users", JObj [("list_endpoint", JStr "/api/v0/users/");
                            ("schema", JStr "/api/v0/users/schema/")]);
            ("projects", JObj [("list_endpoint", JStr "/api/v0/projects/");
                               ("schema", JStr "/api/v0/projects/schema/")])]
           eq_refl).
  intros k Hk. cbn in Hk.
  apply elem_of_cons in Hk as [->|Hk]; [vm_compute; apply list_elem_of_here|].
  apply list_elem_of_singleton in Hk as ->.
  vm_compute. apply list_elem_of_further, list_elem_of_here.
Defined.

(** X13: when the discovery request raises, or returns a body that is not a
    mapping, [find_resources] raises and registers nothing; the request is
    still recorded.  The exception is the transport's own in the first case
    and an [AttributeError] (from [data.keys()]) in the second. *)
Theorem find_resources_without_mapping (self : api.API) :
  (forall resp members,
     fst (request.request "GET" "/" [] (api._request self)) <> Ok (resp, JObj members)) ->
  exists e,
    api.TastyPieAPI.find_resources self = (Raise e, asked self)
    /\ (fst (request.request "GET" "/" [] (api._request self)) = Raise e
        \/ ((exists rd, fst (request.request "GET" "/" [] (api._request self)) = Ok rd)
            /\ exists msg, e = AttributeError msg))
    /\ api.API.resources (asked self) = api.API.resources self
    /\ api.attrs (asked self) = api.attrs self.
Proof.
  intros Hnot. rewrite find_resources_unfold.
  destruct (fst (request.request "GET" "/" [] (api._request self)))
    as [[resp body]|e] eqn:E.
  - destruct body;
      try (eexists; split; [reflexivity|]; split; [right; eauto|split; reflexivity]).
    destruct (Hnot resp members eq_refl).
  - exists e. split; [reflexivity|]. split; [left; reflexivity|split; reflexivity].
Qed.

Lemma find_resources_without_mapping_witness :
  exists e,
    api.TastyPieAPI.find_resources
      (api.API.__init__ (api.TastyPieAPI_members sample.inherited) sample.meta sample.failing_server "<api>")
    = (Raise e,
       asked (api.API.__init__ (api.TastyPieAPI_members sample.inherited) sample.meta
                sample.failing_server "<api>")).
Proof.
  destruct (find_resources_without_mapping
              (api.API.__init__ (api.TastyPieAPI_members sample.inherited) sample.meta
                 sample.failing_server "<api>")) as (e & Hrun & _).
  - intros resp members. discriminate.
  - exists e. exact Hrun.
Defined.

(** ** Authentication, continued *)

Lemma requests_record_request (c : call) (t : RequestHandler) :
  request.requests (request.record c t)
  = request.requests t ++ match c with Request _ _ _ => [c] | _ => [] end.
Proof.
  unfold request.requests, request.record. cbn [received].
  rewrite List.filter_app. cbn [List.filter]. destruct c; reflexivity.
Qed.

(** X14: [auth], in every configuration and whether it returns or raises,
    makes no HTTP request and at most one call on the request handler; the
    attributes, the [resources] listing, the meta and the server behind the
    request handler are left as they were. *)
Theorem auth_makes_no_request (self : api.API) (user secret : pyval) :
  request.requests (api._request (snd (api.TastyPieAPI.auth user secret self)))
    = request.requests (api._request self)
  /\ (length (received (api._request (snd (api.TastyPieAPI.auth user secret self))))
      <= S (length (received (api._request self))))%nat
  /\ outcome (api._request (snd (api.TastyPieAPI.auth user secret self)))
       = outcome (api._request self)
  /\ api.attrs (snd (api.TastyPieAPI.auth user secret self)) = api.attrs self
  /\ api.API.resources (snd (api.TastyPieAPI.auth user secret self))
       = api.API.resources self
  /\ api._meta (snd (api.TastyPieAPI.auth user secret self)) = api._meta self.
Proof.
  destruct (auth_cases self user secret) as [[e ->]|[->| ->]].
  - cbn [snd]. repeat split. lia.
  - rewrite auth_via_api_key_unfold. cbn [snd with_request api._request].
    rewrite requests_record_request, app_nil_r.
    cbn [request.record received outcome]. rewrite length_app. cbn [length].
    repeat split. lia.
  - rewrite auth_via_basic_unfold. cbn [snd with_request api._request].
    rewrite requests_record_request, app_nil_r.
    cbn [request.record received outcome]. rewrite length_app. cbn [length].
    repeat split. lia.
Qed.

(** X15: with the [basic] mechanism selected, [auth(u, p)] returns normally
    and its whole effect is the one call [set_auth_credentials(u, p)] on the
    shared request handler; no header is added. *)
Theorem auth_basic_stores_credentials (self : api.API) (user password : pyval) :
  api.meta_auth_mech (api._meta self) = "basic" ->
  "basic" ∈ api.meta_auth_mechanizms (api._meta self) ->
  api.TastyPieAPI.auth user password self
  = (Ok tt,
     with_request
       {| received := received (api._request self) ++ [SetAuthCredentials user password];
          outcome := outcome (api._request self) |} self).
Proof.
  intros Hmech Hin. rewrite auth_unfold_basic by assumption. reflexivity.
Qed.

Lemma auth_basic_stores_credentials_witness :
  received
    (api._request
       (snd (api.TastyPieAPI.auth (PStr "john.doe") (PStr "my_password")
               (api.API.__init__ (api.TastyPieAPI_members sample.inherited)
                  {| api.meta_baseurl := Some "http://localhost:8000/api/v0/";
                     api.meta_resource := resource.TastyPieResourceHandler;
                     api.meta_ignore_ssl_validation := false;
                     api.meta_auto_detect_resources := true;
                     api.meta_auth_mech := "basic";
                     api.meta_auth_mechanizms := ["api_key"; "basic"] |}
                  sample.server "<api>"))))
  = [SetAuthCredentials (PStr "john.doe") (PStr "my_password")].
Proof.
  rewrite auth_basic_stores_credentials; [reflexivity|reflexivity|].
  apply list_elem_of_further, list_elem_of_here.
Defined.

Lemma eqb_append_prefix (p a b : string) :
  String.eqb (p +:+ a) (p +:+ b) = String.eqb a b.
Proof.
  induction p as [|x p IH]; [reflexivity|].
  change (String.eqb (String x (p +:+ a)) (String x (p +:+ b)) = String.eqb a b).
  cbn [String.eqb]. rewrite Ascii.eqb_refl. exact IH.
Qed.

(** X16: a mechanism that is listed in [auth_mechanizms] but has no
    [_auth_via_<mechanism>] attribute is not reported as unknown: [auth]
    raises [AttributeError] from the attribute lookup, and leaves the
    connection as it was. *)
Theorem auth_listed_mechanism_without_method (self : api.API) (user secret : pyval) :
  api.meta_auth_mech (api._meta self) ∈ api.meta_auth_mechanizms (api._meta self) ->
  api.meta_auth_mech (api._meta self) <> "api_key" ->
  api.meta_auth_mech (api._meta self) <> "basic" ->
  api.hasattr self ("_auth_via_" +:+ api.meta_auth_mech (api._meta self)) = false ->
  api.TastyPieAPI.auth user secret self
  = (Raise (AttributeError
              ("'TastyPieAPI' object has no attribute '_auth_via_"
                 +:+ api.meta_auth_mech (api._meta self) +:+ "'")),
     self).
Proof.
  intros Hin Hkey Hbasic Hfree.
  unfold api.TastyPieAPI.auth, bind, api.me.
  rewrite bool_decide_eq_true_2 by assumption.
  unfold api.TastyPieAPI.getattr_callable, bind, api.me, ret, raise.
  change "_auth_via_api_key" with ("_auth_via_" +:+ "api_key").
  change "_auth_via_basic" with ("_auth_via_" +:+ "basic").
  rewrite !eqb_append_prefix.
  destruct (String.eqb_spec (api.meta_auth_mech (api._meta self)) "api_key");
    [contradiction|].
  destruct (String.eqb_spec (api.meta_auth_mech (api._meta self)) "basic");
    [contradiction|].
  unfold api.hasattr in Hfree. apply bool_decide_eq_false in Hfree.
  apply eq_None_not_Some in Hfree. rewrite Hfree. reflexivity.
Qed.

Lemma auth_listed_mechanism_without_method_witness :
  fst (api.TastyPieAPI.auth (PStr "john.doe") (PStr "token")
         (api.API.__init__ (api.TastyPieAPI_members sample.inherited)
            {| api.meta_baseurl := Some "http://localhost:8000/api/v0/";
               api.meta_resource := resource.TastyPieResourceHandler;
               api.meta_ignore_ssl_validation := false;
               api.meta_auto_detect_resources := true;
               api.meta_auth_mech := "oauth";
               api.meta_auth_mechanizms := ["api_key"; "basic"; "oauth"] |}
            sample.server "<api>"))
  = Raise (AttributeError "'TastyPieAPI' object has no attribute '_auth_via_oauth'").
Proof.
  rewrite auth_listed_mechanism_without_method; [reflexivity| | | |].
  - apply list_elem_of_further, list_elem_of_further, list_elem_of_here.
  - discriminate.
  - discriminate.
  - vm_compute. reflexivity.
Defined.

(** ** Resource verbs, continued *)

(** X17: every verb hands back what the request handler produced, untouched,
    unless that is a request error: a (response, body) pair is returned as
    it is, and an exception of any other class propagates as it is. *)
Theorem verb_passes_other_outcomes (self : resource.ResourceHandler) (v : verb)
    (t : RequestHandler) (method path : string) (ps : params) :
  snd (run self v t) = request.record (Request method path ps) t ->
  (forall msg resp content,
     fst (request.request method path ps t) <> Raise (dRestRequestError msg resp content)) ->
  fst (run self v t) = fst (request.request method path ps t).
Proof.
  intros Hcall Hother. unfold request.request in *. cbn [fst] in *.
  destruct v; unfold_verb; cbn [fst snd];
    (unfold run in Hcall;
     first [ rewrite get_call in Hcall | rewrite post_call in Hcall
           | rewrite put_call in Hcall | rewrite delete_call in Hcall
           | unfold resource.create in Hcall; rewrite post_call in Hcall
           | unfold resource.update in Hcall; rewrite put_call in Hcall ];
     apply record_inj in Hcall; injection Hcall as -> -> ->;
     destruct (outcome t (received t) method path ps) as [r|[]] eqn:E;
     try reflexivity; destruct (Hother _ _ _ eq_refl)).
Qed.

Lemma verb_passes_other_outcomes_witness :
  fst (resource.put sample.users (PInt 3) [("name", "john")]
         (sample.transport sample.server))
  = Ok (sample.ok, JObj []).
Proof.
  assert (forall msg resp content,
            fst (request.request "PUT" "/users/3" [("name", "john")]
                   (sample.transport sample.server))
            <> Raise (dRestRequestError msg resp content)) as Hother
    by (intros msg resp content; discriminate).
  exact (verb_passes_other_outcomes sample.users (Put (PInt 3) [("name", "john")])
           (sample.transport sample.server) "PUT" "/users/3" [("name", "john")]
           eq_refl Hother).
Defined.

(** X18: [get] with an id that is false as a Python value ([None], [0],
    ['']) makes the same request as [get()] without an id, the collection
    request ['/<path>'], and returns what [get()] returns. *)
Theorem get_false_id_requests_collection (self : resource.ResourceHandler)
    (resource_id : pyval) (ps : params) (t : RequestHandler) :
  Py.truthy resource_id = false ->
  snd (resource.get self resource_id ps t) = snd (resource.get self PNone ps t)
  /\ sends (resource.get self resource_id ps) t "GET"
       ("/" +:+ resource.meta_path (resource._meta self))
  /\ (forall r, fst (resource.get self PNone ps t) = Ok r ->
                fst (resource.get self resource_id ps t) = Ok r).
Proof.
  intros Hfalse. unfold sends. rewrite !get_call, Hfalse. cbn [Py.truthy].
  split; [reflexivity|]. split; [eexists; reflexivity|].
  intros r. unfold resource.get. rewrite Hfalse. cbn [Py.truthy].
  rewrite !try_request_unfold. cbn [fst].
  destruct (outcome t (received t) "GET" _ _) as [r'|[]]; congruence.
Qed.

Lemma get_false_id_requests_collection_witness :
  sends (resource.get sample.users (PStr "") []) (sample.transport sample.server)
    "GET" "/users".
Proof.
  apply (get_false_id_requests_collection sample.users (PStr "") []
           (sample.transport sample.server) eq_refl).
Defined.

(** X19: a resource URI that is empty or consists of slashes only has no
    trailing segment: [get_by_uri] then makes the collection request
    ['/<path>']. *)
Theorem get_by_uri_of_slashes_requests_collection (self : resource.ResourceHandler)
    (k : nat) (ps : params) (t : RequestHandler) :
  resource.get_by_uri self (Py.times "/" k) ps t = resource.get self (PStr "") ps t
  /\ sends (resource.get_by_uri self (Py.times "/" k) ps) t "GET"
       ("/" +:+ resource.meta_path (resource._meta self)).
Proof.
  assert (resource.get_by_uri self (Py.times "/" k) ps t
          = resource.get self (PStr "") ps t) as H.
  { unfold resource.get_by_uri. rewrite rstrip_times. reflexivity. }
  split; [exact H|]. unfold sends. rewrite H, get_call. eexists. reflexivity.
Qed.

(** X20: [get_by_uri] looks at the trailing segment only: two URIs that end
    in the same id give the same request on this handler, whatever API
    version or resource name precedes the id. *)
Theorem get_by_uri_ignores_prefix (self : resource.ResourceHandler)
    (prefix1 prefix2 id : string) (k1 k2 : nat) (ps : params) (t : RequestHandler) :
  id <> "" -> Py.lacks "/" id = true ->
  resource.get_by_uri self (prefix1 +:+ "/" +:+ id +:+ Py.times "/" k1) ps t
  = resource.get_by_uri self (prefix2 +:+ "/" +:+ id +:+ Py.times "/" k2) ps t.
Proof.
  intros Hne Hl. unfold resource.get_by_uri.
  rewrite !trailing_segment by assumption. reflexivity.
Qed.

Lemma get_by_uri_ignores_prefix_witness :
  resource.get_by_uri sample.users "/api/v1/users/234/" [] (sample.transport sample.server)
  = resource.get_by_uri sample.users "/api/v2/projects/234" []
      (sample.transport sample.server).
Proof.
  assert ("234" <> "") as Hne by discriminate.
  exact (get_by_uri_ignores_prefix sample.users "/api/v1/users" "/api/v2/projects" "234"
           1 0 [] (sample.transport sample.server) Hne eq_refl).
Defined.

(** ** The schema property, continued *)

Lemma schema_fetch (self : resource.ResourceHandler) (t : RequestHandler) :
  Py.truthy_json (resource.meta_schema (resource._meta self)) = false ->
  resource.schema (self, t)
  = match fst (request.request "GET"
                 (resource.meta_path (resource._meta self) +:+ "/schema") [] t) with
    | Ok rd =>
        (Ok (snd rd),
         (resource.set_schema (snd rd) self,
          request.record
            (Request "GET" (resource.meta_path (resource._meta self) +:+ "/schema") []) t))
    | Raise e =>
        (Raise e,
         (self,
          request.record
            (Request "GET" (resource.meta_path (resource._meta self) +:+ "/schema") []) t))
    end.
Proof.
  intros Hunset.
  unfold resource.schema, bind, gets, resource.on_request, resource.request,
    request.request, modify, ret.
  cbn [fst snd]. rewrite Hunset. cbn [negb fst snd].
  destruct (outcome t (received t) "GET" _ []) as [[resp data]|e]; reflexivity.
Qed.

(** X21: a failed schema fetch is not remembered: if the first access of
    [schema] raises because the GET failed, the handler is left without a
    schema, and a later access asks again and returns the body the server
    then sends. *)
Theorem schema_retried_after_error (self : resource.ResourceHandler)
    (t t' : RequestHandler) (e : exn) (resp : response) (data : json) :
  Py.truthy_json (resource.meta_schema (resource._meta self)) = false ->
  fst (request.request "GET" (resource.meta_path (resource._meta self) +:+ "/schema") [] t)
    = Raise e ->
  fst (request.request "GET" (resource.meta_path (resource._meta self) +:+ "/schema") [] t')
    = Ok (resp, data) ->
  fst (resource.schema (self, t)) = Raise e
  /\ fst (snd (resource.schema (self, t))) = self
  /\ fst (resource.schema (fst (snd (resource.schema (self, t))), t')) = Ok data
  /\ received (snd (snd (resource.schema (fst (snd (resource.schema (self, t))), t'))))
       = received t'
           ++ [Request "GET" (resource.meta_path (resource._meta self) +:+ "/schema") []].
Proof.
  intros Hunset Hfail Hok.
  rewrite (schema_fetch self t Hunset), Hfail. cbn [fst snd].
  rewrite (schema_fetch self t' Hunset), Hok. cbn [fst snd].
  repeat split.
Qed.

Lemma schema_retried_after_error_witness :
  fst (resource.schema (sample.users, sample.transport sample.failing_server))
    = Raise (dRestRequestError "Received HTTP Code 404 - NOT FOUND" sample.not_found
               (JStr "no such page"))
  /\ fst (resource.schema
            (fst (snd (resource.schema
                         (sample.users, sample.transport sample.failing_server))),
             sample.transport sample.server))
     = Ok sample.users_schema.
Proof.
  destruct (schema_retried_after_error sample.users
              (sample.transport sample.failing_server) (sample.transport sample.server)
              (dRestRequestError "Received HTTP Code 404 - NOT FOUND" sample.not_found
                 (JStr "no such page"))
              sample.ok sample.users_schema eq_refl eq_refl eq_refl)
    as (H1 & _ & H3 & _).
  split; [exact H1|exact H3].
Defined.

(** X22: a schema body that is false as a Python value (an empty mapping,
    an empty string, [None]) is returned and stored but never counts as
    fetched: the next access of [schema] issues the GET again. *)
Theorem schema_false_body_fetched_again (self : resource.ResourceHandler)
    (t t' : RequestHandler) (resp : response) (data : json) :
  Py.truthy_json (resource.meta_schema (resource._meta self)) = false ->
  fst (request.request "GET" (resource.meta_path (resource._meta self) +:+ "/schema") [] t)
    = Ok (resp, data) ->
  Py.truthy_json data = false ->
  resource.schema (self, t)
    = (Ok data,
       (resource.set_schema data self,
        request.record
          (Request "GET" (resource.meta_path (resource._meta self) +:+ "/schema") []) t))
  /\ received (snd (snd (resource.schema (resource.set_schema data self, t'))))
       = received t'
           ++ [Request "GET" (resource.meta_path (resource._meta self) +:+ "/schema") []].
Proof.
  intros Hunset Hok Hfalse.
  rewrite (schema_fetch self t Hunset), Hok. cbn [fst snd].
  split; [reflexivity|].
  rewrite (schema_fetch (resource.set_schema data self) t') by exact Hfalse.
  cbn [resource.set_schema resource._meta resource.meta_path].
  destruct (fst (request.request "GET" _ [] t')) as [rd|e']; reflexivity.
Qed.

Lemma schema_false_body_fetched_again_witness :
  received
    (snd (snd (resource.schema
                 (resource.set_schema (JObj []) sample.users,
                  request.record (Request "GET" "users/schema" [])
                    (sample.transport sample.empty_server)))))
  = [Request "GET" "users/schema" []; Request "GET" "users/schema" []].
Proof.
  destruct (schema_false_body_fetched_again sample.users
              (sample.transport sample.empty_server)
              (request.record (Request "GET" "users/schema" [])
                 (sample.transport sample.empty_server))
              sample.ok (JObj []) eq_refl eq_refl eq_refl) as (_ & H).
  exact H.
Defined.

(** A body that is a list: [data.keys()] fails with Python's message for
    that type. *)
Example find_resources_on_list_body :
  fst (api.TastyPieAPI.find_resources
         (api.API.__init__ (api.TastyPieAPI_members sample.inherited) sample.meta
            sample.list_server "<api>"))
  = Raise (AttributeError "'list' object has no attribute 'keys'").
Proof. vm_compute. reflexivity. Qed.

(** On an interpreter whose objects have [__eq__], a discovery body that
    lists [__eq__] is refused like any other taken name. *)
Example add_resource_dunder_refused :
  api.hasattr sample.connection "__eq__" = true
  /\ exists msg, fst (api.API.add_resource "__eq__" None None sample.connection)
                 = Raise (dRestResourceError msg).
Proof. split; [vm_compute; reflexivity|]. eexists. vm_compute. reflexivity. Qed.
